(** * Service lifecycle manager of the ollama-mcp-bridge

    A shallow embedding of the process-supervision layer:
    [src/service/health.ts], [src/service/errors.ts], [src/service/types.ts],
    [src/service/base.ts], [src/platform/unix/{process,service}.ts] and
    [src/platform/windows/{process,service}.ts].

    Asynchronous code is modelled by explicit state passing: a computation
    takes the state of the supervised system (clock, counters of the calls
    made to the outside world, the chronological trace of those calls and
    the manager's [ServiceStatus]) and yields an outcome together with the
    state it leaves behind.  The reactions of the outside world (HTTP
    responses, results of shell commands, timer overshoot) are an oracle
    [Env], so that every statement quantified over [Env] speaks about every
    behaviour of the network and of the operating system. *)

From Stdlib Require Import ZArith List String Ascii Bool Lia.
From Stdlib Require Import DecimalString Decimal DecimalPos.
Import ListNotations.

Open Scope string_scope.
Open Scope Z_scope.

(** ** JavaScript values used by the code *)

Module JS.

(** A JavaScript number as far as the code needs it: durations, attempt
    counts and process ids are integers; a division by zero yields an
    infinity or [NaN], [parseInt] of a non-numeric text yields [NaN]. *)
Inductive number : Type :=
| Int (z : Z)
| PosInfinity
| NegInfinity
| NaN.

(** ToBoolean on a number: [0] and [NaN] are falsy. *)
Definition truthy (n : number) : bool :=
  match n with
  | Int z => negb (z =? 0)
  | PosInfinity | NegInfinity => true
  | NaN => false
  end.

(** [a || b] where [a] may be [undefined]. *)
Definition or_else (a : option number) (b : number) : number :=
  match a with
  | Some n => if truthy n then n else b
  | None => b
  end.


(** [Math.floor(a / b)] on integers. *)
Definition floor_div (a b : Z) : number :=
  if b =? 0 then
    if 0 <? a then PosInfinity
    else if a <? 0 then NegInfinity
    else NaN
  else Int (a / b).

(** [n < m] for an integer [n]. *)
Definition lt_num (n : Z) (m : number) : bool :=
  match m with
  | Int z => n <? z
  | PosInfinity => true
  | NegInfinity | NaN => false
  end.

Definition string_of_Z (z : Z) : string :=
  NilZero.string_of_int (Z.to_int z).

(** [String(n)], as used by template literals. *)
Definition to_string (n : number) : string :=
  match n with
  | Int z => string_of_Z z
  | PosInfinity => "Infinity"
  | NegInfinity => "-Infinity"
  | NaN => "NaN"
  end.

(** White space and line terminators among the code units 0..255. *)
Definition is_space (c : ascii) : bool :=
  let n := nat_of_ascii c in
  ((9 <=? n) && (n <=? 13))%nat || (n =? 32)%nat || (n =? 160)%nat.

Definition is_digit (c : ascii) : bool :=
  let n := nat_of_ascii c in ((48 <=? n) && (n <=? 57))%nat.

Definition digit_value (c : ascii) : Z := Z.of_nat (nat_of_ascii c) - 48.

Fixpoint trimStart (s : string) : string :=
  match s with
  | String c t => if is_space c then trimStart t else s
  | EmptyString => EmptyString
  end.

Fixpoint rev_string (acc s : string) : string :=
  match s with
  | String c t => rev_string (String c acc) t
  | EmptyString => acc
  end.

Definition trimEnd (s : string) : string :=
  rev_string "" (trimStart (rev_string "" s)).

Definition trim (s : string) : string := trimEnd (trimStart s).

(** The longest prefix of decimal digits, read as a number; [None] when the
    text does not start with a digit. *)
Fixpoint digits_prefix (acc : option Z) (s : string) : option Z :=
  match s with
  | String c t =>
      if is_digit c
      then digits_prefix
             (Some (10 * match acc with Some a => a | None => 0 end
                    + digit_value c)) t
      else acc
  | EmptyString => acc
  end.

(** [parseInt(s, 10)]. *)
Definition parseInt (s : string) : number :=
  match trimStart s with
  | String "-" t =>
      match digits_prefix None t with
      | Some z => Int (- z)
      | None => NaN
      end
  | String "+" t =>
      match digits_prefix None t with
      | Some z => Int z
      | None => NaN
      end
  | t =>
      match digits_prefix None t with
      | Some z => Int z
      | None => NaN
      end
  end.

End JS.

(** ** Errors ([src/service/errors.ts]) and status ([src/service/types.ts]) *)

Inductive ServiceState : Type :=
| StStarting | StRunning | StStopping | StStopped | StError.

Definition ServiceState_eqb (a b : ServiceState) : bool :=
  match a, b with
  | StStarting, StStarting | StRunning, StRunning | StStopping, StStopping
  | StStopped, StStopped | StError, StError => true
  | _, _ => false
  end.

Record ServiceStatus : Type := mkStatus {
  running : bool;
  state : ServiceState;
  pid : option Z;
  lastError : option string
}.

(** [Partial<ServiceStatus>]: the keys an update object carries. *)
Record StatusUpdate : Type := mkUpdate {
  upd_running : option bool;
  upd_state : option ServiceState;
  upd_pid : option Z;
  upd_lastError : option string
}.

Record HealthCheckConfig : Type := mkHealthCheckConfig {
  timeout : Z;
  interval : Z;
  maxAttempts : option JS.number
}.

Record ServiceConfig : Type := mkServiceConfig {
  command : string;
  port : Z;
  healthCheck : HealthCheckConfig
}.

Module ProcessInfo.
Record t : Type := mk { pid : JS.number; name : string }.
End ProcessInfo.

Inductive Operation : Type := OpStart | OpStop | OpFind.

Inductive PlatformName : Type := unix | windows.

(** Values that can be thrown.  [PlainError] stands for the errors raised by
    the runtime itself (a rejected [fetch], a failed [exec], a [SyntaxError]);
    [NonError] for a thrown value that is not an [Error].  The remaining
    constructors are the classes of [errors.ts]; none of [TimeoutError],
    [HealthCheckError] and [PlatformError] extends [ServiceError] or
    [ProcessError]. *)
#[local] Unset Elimination Schemes.
Inductive JsError : Type :=
| PlainError (message : string)
| NonError (repr : string)
| ServiceError (message : string) (serviceStatus : ServiceStatus)
    (cause : option JsError)
| ProcessError (message : string) (processName : string)
    (operation : Operation) (cause : option JsError)
| TimeoutError (message : string) (operation : string) (timeoutMs : Z)
| HealthCheckError (message : string) (serviceStatus : ServiceStatus)
    (attempts : Z)
| PlatformError (message : string) (platform : PlatformName)
    (operation : string) (cause : option JsError).
#[local] Set Elimination Schemes.

(** [error instanceof ProcessError || error instanceof ServiceError] *)
Definition is_ProcessError_or_ServiceError (e : JsError) : bool :=
  match e with
  | ProcessError _ _ _ _ | ServiceError _ _ _ => true
  | _ => false
  end.

(** [error instanceof Error ? error : new Error(String(error))] *)
Definition wrappedError (e : JsError) : JsError :=
  match e with
  | NonError r => PlainError r
  | _ => e
  end.

(** ** The outside world *)

Inductive FetchReply : Type :=
| Responded (status : Z)
| Rejected (e : JsError).

Inductive ExecReply : Type :=
| Completed (stdout : string)
| Failed (e : JsError).

(** Result of [subject.match(new RegExp(source))] : the constructor may throw
    a [SyntaxError]; a match exposes capture group 1, which is [undefined]
    when the group did not take part in the match. *)
Inductive RegExpResult : Type :=
| RxSyntaxError
| RxNoMatch
| RxMatch (group1 : option string).

Inductive Event : Type :=
| EvFetch (url : string)
| EvExec (cmd : string)
| EvSpawn (cmd : string)
| EvSleep (ms : Z).

(** The process-control primitives are the shell commands awaited through
    [exec] (lookup and kill) and the detached spawn. *)
Definition is_process_op (ev : Event) : bool :=
  match ev with
  | EvExec _ | EvSpawn _ => true
  | EvFetch _ | EvSleep _ => false
  end.

(** The oracle: the reply to the [k]-th call of each kind.  Shell commands
    are not timed, because no code reads the clock across one. *)
Record Env : Type := mkEnv {
  fetch_reply : nat -> string -> FetchReply;
  fetch_latency : nat -> Z;
  exec_reply : nat -> string -> ExecReply;
  spawn_reply : nat -> string -> option JsError;
  timer_overshoot : nat -> Z;
  regexp_other : string -> string -> RegExpResult
}.

Record Sys : Type := mkSys {
  now : Z;
  fetches : nat;
  execs : nat;
  spawns : nat;
  sleeps : nat;
  trace : list Event;
  status : ServiceStatus
}.

Definition set_status (st : ServiceStatus) (s : Sys) : Sys :=
  mkSys (now s) (fetches s) (execs s) (spawns s) (sleeps s) (trace s) st.

(** ** Computations *)

Inductive Outcome (A : Type) : Type :=
| Ok (a : A)
| Throw (e : JsError)
| OutOfFuel.

Arguments Ok {A} a.
Arguments Throw {A} e.
Arguments OutOfFuel {A}.

Definition M (A : Type) : Type := Sys -> Outcome A * Sys.

Definition ret {A} (a : A) : M A := fun s => (Ok a, s).

Definition throw {A} (e : JsError) : M A := fun s => (Throw e, s).

Definition bind {A B} (m : M A) (k : A -> M B) : M B :=
  fun s =>
    match m s with
    | (Ok a, s') => k a s'
    | (Throw e, s') => (Throw e, s')
    | (OutOfFuel, s') => (OutOfFuel, s')
    end.

(** [try { m } catch (error) { h error }] *)
Definition try_catch {A} (m : M A) (h : JsError -> M A) : M A :=
  fun s =>
    match m s with
    | (Throw e, s') => h e s'
    | r => r
    end.

Declare Scope js_scope.
Delimit Scope js_scope with js.
Notation "x <- m ;; k" := (bind m (fun x => k))
  (at level 61, m at next level, right associativity) : js_scope.
Notation "m ;;; k" := (bind m (fun _ => k))
  (at level 61, right associativity) : js_scope.
Open Scope js_scope.

Definition get_status : M ServiceStatus := fun s => (Ok (status s), s).

Definition put_status (st : ServiceStatus) : M unit :=
  fun s => (Ok tt, set_status st s).

(** [Date.now()] *)
Definition date_now : M Z := fun s => (Ok (now s), s).

(** A timer shorter than 1 ms or longer than 2^31-1 ms is set to 1 ms. *)
Definition timer_delay (ms : Z) : Z :=
  if (ms <? 1) || (2147483647 <? ms) then 1 else ms.

Section Primitives.
Context (env : Env).

(** [await fetch(url)], yielding the response's status code. *)
Definition fetch (url : string) : M Z :=
  fun s =>
    let k := fetches s in
    let s' := mkSys (now s + fetch_latency env k) (S k) (execs s) (spawns s)
                (sleeps s) (trace s ++ [EvFetch url]) (status s) in
    match fetch_reply env k url with
    | Responded st => (Ok st, s')
    | Rejected e => (Throw e, s')
    end.

(** A shell command awaited to completion, yielding its standard output. *)
Definition execAsync (cmd : string) : M string :=
  fun s =>
    let k := execs s in
    let s' := mkSys (now s) (fetches s) (S k) (spawns s) (sleeps s)
                (trace s ++ [EvExec cmd]) (status s) in
    match exec_reply env k cmd with
    | Completed out => (Ok out, s')
    | Failed e => (Throw e, s')
    end.

(** [exec(command, options)] followed by [unref()]: a detached child. *)
Definition spawn_detached (cmd : string) : M unit :=
  fun s =>
    let k := spawns s in
    let s' := mkSys (now s) (fetches s) (execs s) (S k) (sleeps s)
                (trace s ++ [EvSpawn cmd]) (status s) in
    match spawn_reply env k cmd with
    | None => (Ok tt, s')
    | Some e => (Throw e, s')
    end.

(** [await new Promise(resolve => setTimeout(resolve, ms))] *)
Definition sleep (ms : Z) : M unit :=
  fun s =>
    let k := sleeps s in
    (Ok tt,
     mkSys (now s + timer_delay ms + timer_overshoot env k) (fetches s)
       (execs s) (spawns s) (S k) (trace s ++ [EvSleep ms]) (status s)).

End Primitives.

(** ** The regular expression of the Windows process lookup

    [new RegExp(`"${name}","([0-9]+)"`)] for a [name] interpolated verbatim.
    For a name made of ordinary characters and dots the pattern is matched
    here (a dot stands for any character but a line terminator, the search
    is leftmost, the digits are greedy); for a name that carries other
    pattern syntax the engine's verdict is left to the oracle. *)

Module RegExp.

Definition dquote : ascii := "034"%char.

Definition is_syntax (c : ascii) : bool :=
  existsb (Ascii.eqb c) (list_ascii_of_string "\^$*+?()[]{}|").

Fixpoint has_syntax (name : string) : bool :=
  match name with
  | String c t => is_syntax c || has_syntax t
  | EmptyString => false
  end.

Definition is_line_terminator (c : ascii) : bool :=
  Ascii.eqb c "010"%char || Ascii.eqb c "013"%char.

(** The characters of [name] at the head of the subject; what follows. *)
Fixpoint match_name (name subject : string) : option string :=
  match name, subject with
  | EmptyString, _ => Some subject
  | String p name', String c subject' =>
      if Ascii.eqb p "."
      then if is_line_terminator c then None else match_name name' subject'
      else if Ascii.eqb p c then match_name name' subject' else None
  | String _ _, EmptyString => None
  end.

(** [[0-9]+] followed by a double quote; the digits matched. *)
Fixpoint match_digits (seen : string) (subject : string) : option string :=
  match subject with
  | String c t =>
      if JS.is_digit c then match_digits (String c seen) t
      else if Ascii.eqb c dquote
           then match seen with
                | EmptyString => None
                | _ => Some (JS.rev_string "" seen)
                end
           else None
  | EmptyString => None
  end.

Definition match_here (name subject : string) : option string :=
  match subject with
  | String q rest =>
      if Ascii.eqb q dquote then
        match match_name name rest with
        | Some (String q1 (String comma (String q2 rest'))) =>
            if Ascii.eqb q1 dquote && Ascii.eqb comma "," && Ascii.eqb q2 dquote
            then match_digits "" rest'
            else None
        | _ => None
        end
      else None
  | EmptyString => None
  end.

Fixpoint search (name subject : string) : option string :=
  match match_here name subject with
  | Some g => Some g
  | None =>
      match subject with
      | String _ t => search name t
      | EmptyString => None
      end
  end.

Definition match_pid (env : Env) (name stdout : string) : RegExpResult :=
  if has_syntax name then regexp_other env name stdout
  else match search name stdout with
       | Some g => RxMatch (Some g)
       | None => RxNoMatch
       end.

End RegExp.

(** ** Health probe and health wait ([src/service/health.ts]) *)

Module Health.

(** [interface HealthChecker] *)
Record HealthChecker : Type := mkHealthChecker { check : M bool }.

(** [response.ok]: the status is in the range 200-299. *)
Definition response_ok (code : Z) : bool := (200 <=? code) && (code <=? 299).

Definition probe_url (port : Z) (endpoint : string) : string :=
  "http://127.0.0.1:" ++ JS.string_of_Z port ++ endpoint.

(** What happens at the end of the loop body or of the loop. *)
Inductive LoopExit : Type :=
| Returned
| Exhausted (attempts : Z).

Section WithEnv.
Context (env : Env).

(** [class ServiceHealthChecker] *)
Definition ServiceHealthChecker (port : Z) (endpoint : string)
  : HealthChecker :=
  mkHealthChecker
    (try_catch
       (response <- fetch env (probe_url port endpoint) ;;
        ret (response_ok response))
       (fun _ => ret false)).

(** [createHealthChecker(port)], with the default endpoint. *)
Definition createHealthChecker (port : Z) : HealthChecker :=
  ServiceHealthChecker port "/api/tags".

(** [const maxAttempts = config.maxAttempts || Math.floor(...)] *)
Definition maxAttemptsOf (config : HealthCheckConfig) : JS.number :=
  JS.or_else (maxAttempts config)
    (JS.floor_div (timeout config) (interval config)).

(** [while (attempts < maxAttempts) { ... }] *)
Fixpoint wait_loop (fuel : nat) (checker : HealthChecker)
    (config : HealthCheckConfig) (currentStatus : M ServiceStatus)
    (start : Z) (bound : JS.number) (attempts : Z) : M LoopExit :=
  match fuel with
  | O => fun s => (OutOfFuel, s)
  | S fuel' =>
      if JS.lt_num attempts bound then
        healthy <- check checker ;;
        if healthy : bool then ret Returned
        else
          t <- date_now ;;
          if timeout config <=? t - start then
            _ <- currentStatus ;;
            throw (TimeoutError "Health check timed out" "health_check"
                     (timeout config))
          else
            sleep env (interval config) ;;;
            wait_loop fuel' checker config currentStatus start bound
              (attempts + 1)
      else ret (Exhausted attempts)
  end.

Definition waitForHealth (fuel : nat) (checker : HealthChecker)
    (config : HealthCheckConfig) (currentStatus : M ServiceStatus) : M unit :=
  start <- date_now ;;
  r <- wait_loop fuel checker config currentStatus start
         (maxAttemptsOf config) 0 ;;
  match r with
  | Returned => ret tt
  | Exhausted attempts =>
      st <- currentStatus ;;
      throw (HealthCheckError "Health check failed after maximum attempts"
               st attempts)
  end.

End WithEnv.
End Health.

(** ** The base manager ([src/service/base.ts]) *)

Module Base.

Definition initial_status : ServiceStatus :=
  mkStatus false StStopped None None.

Definition merge (st : ServiceStatus) (update : StatusUpdate)
  : ServiceStatus :=
  mkStatus
    (match upd_running update with Some r => r | None => running st end)
    (match upd_state update with Some x => x | None => state st end)
    (match upd_pid update with Some p => Some p | None => pid st end)
    (match upd_lastError update with
     | Some e => Some e
     | None => lastError st
     end).

(** [{ state: x }] and [{ running: r, state: x }] *)
Definition only_state (x : ServiceState) : StatusUpdate :=
  mkUpdate None (Some x) None None.

Definition running_and_state (r : bool) (x : ServiceState) : StatusUpdate :=
  mkUpdate (Some r) (Some x) None None.

Definition updateStatus (update : StatusUpdate) : M unit :=
  st <- get_status ;;
  put_status (merge st update).

Section WithEnv.
Context (env : Env) (config : ServiceConfig).

Definition healthChecker : Health.HealthChecker :=
  Health.createHealthChecker env (port config).

Definition checkHealth : M bool := Health.check healthChecker.

Definition getStatus : M ServiceStatus :=
  healthy <- checkHealth ;;
  st <- get_status ;;
  put_status (mkStatus healthy (state st) (pid st) (lastError st)) ;;;
  st1 <- get_status ;;
  put_status (mkStatus (running st1)
                (if running st1 then StRunning else StStopped)
                (pid st1) (lastError st1)) ;;;
  get_status.

(** [waitForHealth(checker = this.healthChecker)]: the budget handed over
    carries the timeout and the interval only. *)
Definition waitForHealth (fuel : nat) (checker : Health.HealthChecker)
  : M unit :=
  Health.waitForHealth env fuel checker
    (mkHealthCheckConfig (timeout (healthCheck config))
       (interval (healthCheck config)) None)
    getStatus.

End WithEnv.
End Base.

(** ** Process control ([src/platform/types.ts]) *)

(** [interface ProcessManager] *)
Record ProcessManager : Type := mkProcessManager {
  findProcess : string -> M (option ProcessInfo.t);
  startProcess : string -> M unit;
  stopProcess : string -> M unit;
  forceStopProcess : string -> M unit;
  isProcessRunning : string -> M bool
}.

Definition is_some {A} (o : option A) : bool :=
  match o with
  | Some _ => true
  | None => false
  end.

(** [src/platform/unix/process.ts] *)
Module UnixProcessManager.
Section WithEnv.
Context (env : Env).

Definition findProcess (name : string) : M (option ProcessInfo.t) :=
  try_catch
    (stdout <- execAsync env ("pgrep " ++ name) ;;
     let pid := JS.parseInt (JS.trim stdout) in
     ret (if JS.truthy pid then Some (ProcessInfo.mk pid name) else None))
    (fun _ => ret None).

(** The handlers that drain the child's output only log. *)
Definition startProcess (command : string) : M unit :=
  spawn_detached env command.

Definition stopProcess (name : string) : M unit :=
  process <- findProcess name ;;
  match process with
  | Some p =>
      execAsync env ("kill " ++ JS.to_string (ProcessInfo.pid p)) ;;;
      sleep env 1000
  | None => ret tt
  end.

Definition forceStopProcess (name : string) : M unit :=
  process <- findProcess name ;;
  match process with
  | Some p =>
      execAsync env ("kill -9 " ++ JS.to_string (ProcessInfo.pid p)) ;;;
      ret tt
  | None => ret tt
  end.

Definition isProcessRunning (name : string) : M bool :=
  process <- findProcess name ;;
  ret (is_some process).

Definition manager : ProcessManager :=
  mkProcessManager findProcess startProcess stopProcess forceStopProcess
    isProcessRunning.

End WithEnv.
End UnixProcessManager.

(** [src/platform/windows/process.ts] *)
Module WindowsProcessManager.
Section WithEnv.
Context (env : Env).

Definition tasklist_command (name : string) : string :=
  "tasklist /FI " ++ String RegExp.dquote ("IMAGENAME eq " ++ name)
    ++ String RegExp.dquote " /FO CSV /NH".

Definition findProcess (name : string) : M (option ProcessInfo.t) :=
  try_catch
    (stdout <- execAsync env (tasklist_command name) ;;
     match RegExp.match_pid env name stdout with
     | RxSyntaxError => throw (PlainError "SyntaxError")
     | RxNoMatch => ret None
     | RxMatch None => ret None
     | RxMatch (Some EmptyString) => ret None
     | RxMatch (Some digits) =>
         ret (Some (ProcessInfo.mk (JS.parseInt digits) name))
     end)
    (fun _ => ret None).

Definition startProcess (command : string) : M unit :=
  spawn_detached env command.

Definition forceStopProcess (name : string) : M unit :=
  execAsync env ("taskkill /F /IM " ++ name) ;;;
  ret tt.

Definition stopProcess (name : string) : M unit :=
  try_catch
    (execAsync env ("taskkill /IM " ++ name) ;;;
     sleep env 1000)
    (fun _ => forceStopProcess name).

Definition isProcessRunning (name : string) : M bool :=
  process <- findProcess name ;;
  ret (is_some process).

Definition manager : ProcessManager :=
  mkProcessManager findProcess startProcess stopProcess forceStopProcess
    isProcessRunning.

End WithEnv.
End WindowsProcessManager.

(** ** The platform strategies *)

(** [startService] has the same text in [UnixServiceManager] and in
    [WindowsServiceManager] up to the platform named in the message, the name
    of the process and the process manager; so has the outermost [catch] of
    [startService] and [stopService].  They are written once, over these
    three.  [logStatusChange] only logs. *)
Module Strategy.
Section WithEnv.
Context (env : Env) (config : ServiceConfig).
Context (platform : PlatformName) (processName : string)
        (processManager : ProcessManager).

Definition platform_label : string :=
  match platform with
  | unix => "Unix"
  | windows => "Windows"
  end.

(** [catch (error) { ... throw error / throw new PlatformError(...) }] *)
Definition rethrow (operation : string) (error : JsError) : M unit :=
  let wrapped := wrappedError error in
  if is_ProcessError_or_ServiceError error then throw error
  else throw (PlatformError
                ("Failed to " ++ operation ++ " service on " ++ platform_label
                 ++ " platform")
                platform operation (Some wrapped)).

(** The body of the first inner [try]. *)
Definition stop_existing_body : M unit :=
  found <- isProcessRunning processManager processName ;;
  if found : bool then stopProcess processManager processName else ret tt.

Definition stop_existing : M unit :=
  try_catch stop_existing_body
    (fun error =>
       throw (ProcessError "Failed to stop existing process" processName
                OpStop (Some error))).

Definition start_command : M unit :=
  try_catch
    (startProcess processManager (command config))
    (fun error =>
       throw (ProcessError "Failed to start process" processName OpStart
                (Some error))).

Definition await_health (fuel : nat) : M unit :=
  Base.waitForHealth env config fuel
    (Health.createHealthChecker env (port config)).

Definition startService (fuel : nat) : M unit :=
  try_catch
    (healthy <- Base.checkHealth env config ;;
     if healthy : bool then ret tt
     else
       Base.updateStatus (Base.only_state StStarting) ;;;
       stop_existing ;;;
       start_command ;;;
       await_health fuel)
    (rethrow "start").

End WithEnv.
End Strategy.

(** [class UnixServiceManager] (the service part of
    [src/platform/unix/process.ts]) *)
Module UnixServiceManager.
Section WithEnv.
Context (env : Env) (config : ServiceConfig).

Definition processManager : ProcessManager := UnixProcessManager.manager env.

Definition startService (fuel : nat) : M unit :=
  Strategy.startService env config unix "ollama" processManager fuel.

Definition stopService : M unit :=
  try_catch
    (Base.updateStatus (Base.only_state StStopping) ;;;
     try_catch
       (stopProcess processManager "ollama" ;;;
        Base.updateStatus (Base.running_and_state false StStopped))
       (fun error =>
          throw (ProcessError "Failed to stop process" "ollama" OpStop
                   (Some error))))
    (Strategy.rethrow unix "stop").

End WithEnv.
End UnixServiceManager.

(** [class WindowsServiceManager] ([src/platform/windows/service.ts]) *)
Module WindowsServiceManager.
Section WithEnv.
Context (env : Env) (config : ServiceConfig).

Definition processManager : ProcessManager :=
  WindowsProcessManager.manager env.

Definition startService (fuel : nat) : M unit :=
  Strategy.startService env config windows "ollama.exe" processManager fuel.

(** [while (attempts < 5) { if (!(await this.checkHealth())) break; ... }],
    with [remaining] = 5 - attempts. *)
Fixpoint wait_until_down (remaining : nat) : M unit :=
  match remaining with
  | O => ret tt
  | S remaining' =>
      healthy <- Base.checkHealth env config ;;
      if healthy : bool
      then sleep env 1000 ;;; wait_until_down remaining'
      else ret tt
  end.

Definition stopService : M unit :=
  try_catch
    (healthy <- Base.checkHealth env config ;;
     if negb healthy then
       Base.updateStatus (Base.running_and_state false StStopped)
     else
       Base.updateStatus (Base.only_state StStopping) ;;;
       try_catch
         (stopProcess processManager "ollama.exe" ;;;
          wait_until_down 5 ;;;
          Base.updateStatus (Base.running_and_state false StStopped))
         (fun _ =>
            try_catch
              (forceStopProcess processManager "ollama.exe" ;;;
               Base.updateStatus (Base.running_and_state false StStopped))
              (fun forceError =>
                 throw (ProcessError "Failed to force stop process"
                          "ollama.exe" OpStop (Some forceError)))))
    (Strategy.rethrow windows "stop").

End WithEnv.
End WindowsServiceManager.

(** ** The factory ([src/service/factory.ts]) *)

Record ServiceManager : Type := mkServiceManager {
  sm_startService : nat -> M unit;
  sm_stopService : M unit;
  sm_checkHealth : M bool;
  sm_getStatus : M ServiceStatus;
  sm_waitForHealth : nat -> M unit
}.

Definition manager_for (platform : PlatformName) (env : Env)
    (config : ServiceConfig) : ServiceManager :=
  match platform with
  | unix =>
      mkServiceManager (UnixServiceManager.startService env config)
        (UnixServiceManager.stopService env)
        (Base.checkHealth env config) (Base.getStatus env config)
        (fun fuel => Base.waitForHealth env config fuel
                       (Base.healthChecker env config))
  | windows =>
      mkServiceManager (WindowsServiceManager.startService env config)
        (WindowsServiceManager.stopService env config)
        (Base.checkHealth env config) (Base.getStatus env config)
        (fun fuel => Base.waitForHealth env config fuel
                       (Base.healthChecker env config))
  end.

(** [ServiceManagerFactory.createForPlatform] *)
Definition createForPlatform (platform : string) (env : Env)
    (config : ServiceConfig) : option ServiceManager :=
  if String.eqb platform "win32" then Some (manager_for windows env config)
  else if String.eqb platform "linux" || String.eqb platform "darwin"
       then Some (manager_for unix env config)
       else None.

(** ** Vocabulary of the statements *)

(** The verdict of the [k]-th HTTP request when it is a health probe. *)
Definition healthy_at (env : Env) (port : Z) (endpoint : string) (k : nat)
  : bool :=
  match fetch_reply env k (Health.probe_url port endpoint) with
  | Responded code => Health.response_ok code
  | Rejected _ => false
  end.

(** The system after one more HTTP request, and after one more timer. *)
Definition fetched (env : Env) (url : string) (s : Sys) : Sys :=
  mkSys (now s + fetch_latency env (fetches s)) (S (fetches s)) (execs s)
    (spawns s) (sleeps s) (trace s ++ [EvFetch url]) (status s).

Definition slept (env : Env) (ms : Z) (s : Sys) : Sys :=
  mkSys (now s + timer_delay ms + timer_overshoot env (sleeps s)) (fetches s)
    (execs s) (spawns s) (S (sleeps s)) (trace s ++ [EvSleep ms]) (status s).

Definition manager_url (config : ServiceConfig) : string :=
  Health.probe_url (port config) "/api/tags".

Definition manager_healthy_at (env : Env) (config : ServiceConfig) (k : nat)
  : bool :=
  healthy_at env (port config) "/api/tags" k.

(** The process-control primitives among the events of a trace. *)
Definition process_ops (tr : list Event) : list Event :=
  filter is_process_op tr.

(** The status [getStatus] stores and returns for a probe verdict. *)
Definition refreshed (healthy : bool) (st : ServiceStatus) : ServiceStatus :=
  mkStatus healthy (if healthy then StRunning else StStopped) (pid st)
    (lastError st).

(** [running == true] iff [state == 'running'], as a boolean. *)
Definition consistent (st : ServiceStatus) : bool :=
  Bool.eqb (running st) (ServiceState_eqb (state st) StRunning).

(** A probe that always answers [false]. *)
Definition always_fails (checker : Health.HealthChecker) : Prop :=
  forall s, fst (Health.check checker s) = Ok false.

(** One failed attempt of the health wait: a probe, then the pause. *)
Definition after_failed_attempt (env : Env) (checker : Health.HealthChecker)
    (ms : Z) (s : Sys) : Sys :=
  slept env ms (snd (Health.check checker s)).

Fixpoint after_failed_attempts (env : Env) (checker : Health.HealthChecker)
    (ms : Z) (s : Sys) (n : nat) : Sys :=
  match n with
  | O => s
  | S n' =>
      after_failed_attempts env checker ms
        (after_failed_attempt env checker ms s) n'
  end.

(** The clock read by the timeout test of attempt [j] (counted from 0) in a
    run of failed attempts begun in [s]. *)
Definition check_time (env : Env) (checker : Health.HealthChecker) (ms : Z)
    (s : Sys) (j : nat) : Z :=
  now (snd (Health.check checker (after_failed_attempts env checker ms s j))).

(** *** Concrete scenarios *)

(** The service is down and no process exists: every request is refused and
    every shell command fails; a request takes 10 ms. *)
Definition env_down : Env :=
  mkEnv (fun _ _ => Rejected (PlainError "ECONNREFUSED")) (fun _ => 10)
    (fun _ _ => Failed (PlainError "Command failed")) (fun _ _ => None)
    (fun _ => 0) (fun _ _ => RxNoMatch).

Definition fresh : Sys := mkSys 0 0 0 0 0 [] Base.initial_status.

(** The configuration of the integration test. *)
Definition test_config : ServiceConfig :=
  mkServiceConfig "ollama serve" 11434 (mkHealthCheckConfig 5000 500 None).

Definition line_feed : string := String "010"%char "".

(** A process 4242 answers the Unix lookup and no kill command succeeds (on
    Windows the lookup fails too); the service answers its probe or not. *)
Definition unkillable (healthy : bool) : Env :=
  mkEnv
    (fun _ _ => if healthy then Responded 200
                else Rejected (PlainError "ECONNREFUSED"))
    (fun _ => 10)
    (fun _ cmd => if String.prefix "pgrep" cmd
                  then Completed ("4242" ++ line_feed)
                  else Failed (PlainError "Operation not permitted"))
    (fun _ _ => None) (fun _ => 0) (fun _ _ => RxNoMatch).

Definition quoted (field : string) : string :=
  String RegExp.dquote (field ++ String RegExp.dquote "").

(** The row [tasklist /FO CSV /NH] prints for the idle process of Windows,
    whose pid is 0. *)
Definition idle_process_row : string :=
  quoted "System Idle Process" ++ "," ++ quoted "0" ++ ","
  ++ quoted "Services" ++ "," ++ quoted "0" ++ "," ++ quoted "8 K"
  ++ String "013"%char line_feed.

Definition env_idle : Env :=
  mkEnv (fun _ _ => Rejected (PlainError "ECONNREFUSED")) (fun _ => 10)
    (fun _ _ => Completed idle_process_row) (fun _ _ => None) (fun _ => 0)
    (fun _ _ => RxNoMatch).

(** The service answers every probe but the second; no process answers the
    lookup; the spawn succeeds. *)
Definition env_flap : Env :=
  mkEnv
    (fun k _ => if Nat.eqb k 1 then Rejected (PlainError "ECONNREFUSED")
                else Responded 200)
    (fun _ => 10)
    (fun _ _ => Failed (PlainError "Command failed")) (fun _ _ => None)
    (fun _ => 0) (fun _ _ => RxNoMatch).

Definition budget_5000_1000_3 : HealthCheckConfig :=
  mkHealthCheckConfig 5000 1000 (Some (JS.Int 3)).



(** The system after one more awaited shell command. *)
Definition executed (env : Env) (cmd : string) (s : Sys) : Sys :=
  mkSys (now s) (fetches s) (S (execs s)) (spawns s) (sleeps s)
    (trace s ++ [EvExec cmd]) (status s).

(** What the [k]-th shell command tells when it is the Unix lookup of
    [name], and when it is the Windows one. *)
Definition pgrep_finds (env : Env) (name : string) (k : nat)
  : option ProcessInfo.t :=
  match exec_reply env k ("pgrep " ++ name) with
  | Completed out =>
      if JS.truthy (JS.parseInt (JS.trim out))
      then Some (ProcessInfo.mk (JS.parseInt (JS.trim out)) name)
      else None
  | Failed _ => None
  end.

Definition tasklist_finds (env : Env) (name : string) (k : nat)
  : option ProcessInfo.t :=
  match exec_reply env k (WindowsProcessManager.tasklist_command name) with
  | Completed out =>
      match RegExp.match_pid env name out with
      | RxMatch (Some (String c digits)) =>
          Some (ProcessInfo.mk (JS.parseInt (String c digits)) name)
      | _ => None
      end
  | Failed _ => None
  end.

(** A [tasklist] row is found and names a pid, not empty. *)
Definition captures_pid (r : RegExpResult) : bool :=
  match r with
  | RxMatch (Some (String _ _)) => true
  | _ => false
  end.

(** The process name and the process manager of each platform strategy. *)
Definition process_name (platform : PlatformName) : string :=
  match platform with
  | unix => "ollama"
  | windows => "ollama.exe"
  end.

Definition process_manager (platform : PlatformName) (env : Env)
  : ProcessManager :=
  match platform with
  | unix => UnixProcessManager.manager env
  | windows => WindowsProcessManager.manager env
  end.

(** The system once [startService] has seen the probe fail and has stored
    the state 'starting'. *)
Definition starting (env : Env) (config : ServiceConfig) (s : Sys) : Sys :=
  set_status (Base.merge (status s) (Base.only_state StStarting))
    (fetched env (manager_url config) s).

(** A computation that never raises nor runs out of fuel. *)
Definition always_returns {A : Type} (m : M A) : Prop :=
  forall s, exists a s', m s = (Ok a, s').

(** [state == 'running'] implies [running == true]: the half of the
    status invariant that every operation keeps. *)
Definition running_when_state_running (st : ServiceStatus) : Prop :=
  state st = StRunning -> running st = true.

(** A computation that keeps it on the stored status, whatever its outcome. *)
Definition preserves {A : Type} (m : M A) : Prop :=
  forall s,
    running_when_state_running (status s) ->
    running_when_state_running (status (snd (m s))).

(** The states of the system a manager can be in: any state holding the
    initial status, and the states its public operations lead to. *)
Inductive reachable (platform : PlatformName) (env : Env)
    (config : ServiceConfig) : Sys -> Prop :=
| reach_initial (s : Sys) :
    status s = Base.initial_status -> reachable platform env config s
| reach_startService (fuel : nat) (s : Sys) :
    reachable platform env config s ->
    reachable platform env config
      (snd (sm_startService (manager_for platform env config) fuel s))
| reach_stopService (s : Sys) :
    reachable platform env config s ->
    reachable platform env config
      (snd (sm_stopService (manager_for platform env config) s))
| reach_checkHealth (s : Sys) :
    reachable platform env config s ->
    reachable platform env config
      (snd (sm_checkHealth (manager_for platform env config) s))
| reach_getStatus (s : Sys) :
    reachable platform env config s ->
    reachable platform env config
      (snd (sm_getStatus (manager_for platform env config) s))
| reach_waitForHealth (fuel : nat) (s : Sys) :
    reachable platform env config s ->
    reachable platform env config
      (snd (sm_waitForHealth (manager_for platform env config) fuel s)).

(** The status after [updateStatus({ running: false, state: 'stopped' })]. *)
Definition stopped_status (st : ServiceStatus) : ServiceStatus :=
  Base.merge st (Base.running_and_state false StStopped).

(** *** Texts

    A text made of decimal digits only, and a text that cannot continue a
    run of digits: it is empty or begins with another character. *)
Fixpoint all_digits (s : string) : bool :=
  match s with
  | String c t => JS.is_digit c && all_digits t
  | EmptyString => true
  end.

Definition ends_the_digits (t : string) : Prop :=
  t = "" \/ exists c rest, t = String c rest /\ JS.is_digit c = false.

(** [Number.MAX_SAFE_INTEGER], 2^53 - 1.  Up to it every integer is a
    number of the code, [parseInt] reads its decimal digits exactly and a
    template literal prints them back; beyond it [parseInt] rounds, and
    from 10^21 on a number is printed in exponent form. *)
Definition MAX_SAFE_INTEGER : Z := 9007199254740991.

Definition safe_pid (p : positive) : Prop := Z.pos p <= MAX_SAFE_INTEGER.

(** The text holds the character. *)
Fixpoint mentions (c : ascii) (s : string) : bool :=
  match s with
  | String x t => Ascii.eqb x c || mentions c t
  | EmptyString => false
  end.

(** The configuration with another [maxAttempts] in its health-check
    budget. *)
Definition with_maxAttempts (n : option JS.number) (config : ServiceConfig)
  : ServiceConfig :=
  mkServiceConfig (command config) (port config)
    (mkHealthCheckConfig (timeout (healthCheck config))
       (interval (healthCheck config)) n).

(** *** Relations between the state before and after a computation *)

(** [R] relates the state a computation starts in to the state it leaves,
    whatever its outcome. *)
Definition steps {A : Type} (R : Sys -> Sys -> Prop) (m : M A) : Prop :=
  forall s, R s (snd (m s)).

(** The relations that compose: reflexive and transitive. *)
Record kept (R : Sys -> Sys -> Prop) : Prop := mkKept {
  kept_refl : forall s, R s s;
  kept_trans : forall s1 s2 s3, R s1 s2 -> R s2 s3 -> R s1 s3
}.

(** Nothing was asked of the process-control layer. *)
Definition no_process_op (s s' : Sys) : Prop :=
  execs s' = execs s
  /\ spawns s' = spawns s
  /\ process_ops (trace s') = process_ops (trace s).

(** The commands spawned along a trace. *)
Definition spawned (tr : list Event) : list string :=
  flat_map (fun ev => match ev with EvSpawn cmd => [cmd] | _ => [] end) tr.

Definition no_spawn (s s' : Sys) : Prop :=
  spawns s' = spawns s /\ spawned (trace s') = spawned (trace s).

(** Neither the stored status nor the count of HTTP requests moved. *)
Definition same_status_and_fetches (s s' : Sys) : Prop :=
  status s' = status s /\ fetches s' = fetches s.

(** The state in which [stopService] begins to stop a healthy service on
    Windows: the probe answered, the state 'stopping' stored. *)
Definition stopping (env : Env) (config : ServiceConfig) (s : Sys) : Sys :=
  set_status (Base.merge (status s) (Base.only_state StStopping))
    (fetched env (manager_url config) s).

(** *** Further scenarios *)

(** The service refuses the first [n] requests and answers from then on; no
    process answers the lookup; the spawn succeeds. *)
Definition env_warming (n : nat) : Env :=
  mkEnv
    (fun k _ => if Nat.ltb k n then Rejected (PlainError "ECONNREFUSED")
                else Responded 200)
    (fun _ => 10)
    (fun _ _ => Failed (PlainError "Command failed")) (fun _ _ => None)
    (fun _ => 0) (fun _ _ => RxNoMatch).

(** The service is down and every request takes 6 seconds to be refused. *)
Definition env_slow : Env :=
  mkEnv (fun _ _ => Rejected (PlainError "ETIMEDOUT")) (fun _ => 6000)
    (fun _ _ => Failed (PlainError "Command failed")) (fun _ _ => None)
    (fun _ => 0) (fun _ _ => RxNoMatch).

(** A service that answers every probe while its process lets itself be
    killed gracefully or not: the graceful [taskkill] succeeds or fails, the
    forced one always succeeds. *)
Definition env_deaf (graceful_ok : bool) : Env :=
  mkEnv (fun _ _ => Responded 200) (fun _ => 10)
    (fun _ cmd => if String.eqb cmd "taskkill /IM ollama.exe"
                  then if graceful_ok then Completed "SUCCESS"
                       else Failed (PlainError "Access is denied")
                  else if String.prefix "pgrep" cmd
                       then Completed ("4242" ++ line_feed)
                       else Completed "SUCCESS")
    (fun _ _ => None) (fun _ => 0) (fun _ _ => RxNoMatch).

(** A manager whose timeout is shorter than its polling interval. *)
Definition short_config : ServiceConfig :=
  mkServiceConfig "ollama serve" 11434 (mkHealthCheckConfig 500 1000 None).

(** ** Sanity checks of the JavaScript fragment *)

Example parseInt_of_pgrep_output :
  JS.parseInt (JS.trim ("4242" ++ line_feed ++ "4300" ++ line_feed))
  = JS.Int 4242.
Proof. reflexivity. Qed.

Example parseInt_of_blank_output : JS.parseInt (JS.trim "  ") = JS.NaN.
Proof. reflexivity. Qed.

Example floor_div_examples :
  JS.floor_div 5000 1000 = JS.Int 5
  /\ JS.floor_div 5000 3000 = JS.Int 1
  /\ JS.floor_div 5000 0 = JS.PosInfinity
  /\ JS.floor_div 0 0 = JS.NaN.
Proof. repeat split. Qed.

Example tasklist_row_is_matched :
  RegExp.search "ollama.exe"
    (quoted "ollama.exe" ++ "," ++ quoted "5120" ++ "," ++ quoted "Console")
  = Some "5120".
Proof. reflexivity. Qed.

Example tasklist_notice_is_not_matched :
  RegExp.search "ollama.exe"
    "INFO: No tasks are running which match the specified criteria."
  = None.
Proof. reflexivity. Qed.

Example probe_url_of_default_port :
  Health.probe_url 11434 "/api/tags" = "http://127.0.0.1:11434/api/tags".
Proof. reflexivity. Qed.

Example kill_command_of_found_process :
  trace (snd (UnixProcessManager.forceStopProcess (unkillable true) "ollama"
                fresh))
  = [EvExec "pgrep ollama"; EvExec "kill -9 4242"].
Proof. reflexivity. Qed.

(** ** The probe and the status read *)

Lemma check_probe (env : Env) (port : Z) (endpoint : string) (s : Sys) :
  Health.check (Health.ServiceHealthChecker env port endpoint) s
  = (Ok (healthy_at env port endpoint (fetches s)),
     fetched env (Health.probe_url port endpoint) s).
Proof.
  unfold healthy_at, fetched. cbn [Health.check Health.ServiceHealthChecker].
  unfold try_catch, bind, fetch, ret.
  destruct (fetch_reply env (fetches s) (Health.probe_url port endpoint));
    reflexivity.
Qed.

Lemma checkHealth_probe (env : Env) (config : ServiceConfig) (s : Sys) :
  Base.checkHealth env config s
  = (Ok (manager_healthy_at env config (fetches s)),
     fetched env (manager_url config) s).
Proof.
  unfold Base.checkHealth, Base.healthChecker, Health.createHealthChecker.
  apply check_probe.
Qed.

Lemma getStatus_probe (env : Env) (config : ServiceConfig) (s : Sys) :
  let st := refreshed (manager_healthy_at env config (fetches s)) (status s) in
  Base.getStatus env config s
  = (Ok st, set_status st (fetched env (manager_url config) s)).
Proof.
  unfold Base.getStatus, bind at 1. rewrite checkHealth_probe.
  reflexivity.
Qed.

(** C8. The probe never raises, and answers [true] exactly when the request
    was answered with a status of the success class 200-299; a rejected
    request (transport failure, timeout) and any other status give [false]. *)
Theorem check_true_iff_success_response
    (env : Env) (port : Z) (endpoint : string) (s : Sys) :
  exists (b : bool) (s' : Sys),
    Health.check (Health.ServiceHealthChecker env port endpoint) s
    = (Ok b, s')
    /\ (b = true <->
        exists code,
          fetch_reply env (fetches s) (Health.probe_url port endpoint)
          = Responded code
          /\ 200 <= code <= 299).
Proof.
  exists (healthy_at env port endpoint (fetches s)).
  exists (fetched env (Health.probe_url port endpoint) s).
  split; [apply check_probe|].
  unfold healthy_at, Health.response_ok.
  destruct (fetch_reply env (fetches s) (Health.probe_url port endpoint))
    as [code|e].
  - split.
    + intros H. exists code. split; [reflexivity|].
      apply andb_true_iff in H. destruct H as [H1 H2].
      apply Z.leb_le in H1. apply Z.leb_le in H2. lia.
    + intros [code' [Heq [H1 H2]]]. injection Heq as <-.
      apply andb_true_iff. split; apply Z.leb_le; assumption.
  - split; [discriminate|].
    intros [code [Heq _]]. discriminate.
Qed.

(** C7. Each [getStatus()] issues one fresh probe and returns the stored
    status with [running] and [state] set from that probe's verdict alone:
    of two calls in a row, the first reports the verdict of request [k], the
    second that of request [k+1], whatever the first one saw, and nothing but
    the two probes happens in between. *)
Theorem getStatus_reports_fresh_probe
    (env : Env) (config : ServiceConfig) (s : Sys) :
  let k := fetches s in
  let r1 := Base.getStatus env config s in
  let r2 := Base.getStatus env config (snd r1) in
  fst r1 = Ok (refreshed (manager_healthy_at env config k) (status s))
  /\ status (snd r1) = refreshed (manager_healthy_at env config k) (status s)
  /\ fetches (snd r1) = S k
  /\ fst r2 = Ok (refreshed (manager_healthy_at env config (S k)) (status s))
  /\ status (snd r2)
     = refreshed (manager_healthy_at env config (S k)) (status s)
  /\ fetches (snd r2) = S (S k)
  /\ trace (snd r2)
     = (trace s
        ++ [EvFetch (manager_url config); EvFetch (manager_url config)])%list.
Proof.
  cbv zeta. rewrite getStatus_probe. cbn [fst snd].
  rewrite getStatus_probe. cbn [fst snd].
  cbn [status set_status fetches fetched trace].
  repeat split.
  now rewrite <- app_assoc.
Qed.

(** ** The health wait *)

Lemma wait_loop_step (env : Env) (fuel : nat) (checker : Health.HealthChecker)
    (config : HealthCheckConfig) (currentStatus : M ServiceStatus)
    (start : Z) (bound : JS.number) (attempts : Z) :
  Health.wait_loop env (S fuel) checker config currentStatus start bound
    attempts
  = if JS.lt_num attempts bound then
      healthy <- Health.check checker ;;
      if healthy : bool then ret Health.Returned
      else
        t <- date_now ;;
        if timeout config <=? t - start then
          _ <- currentStatus ;;
          throw (TimeoutError "Health check timed out" "health_check"
                   (timeout config))
        else
          sleep env (interval config) ;;;
          Health.wait_loop env fuel checker config currentStatus start bound
            (attempts + 1)
    else ret (Health.Exhausted attempts).
Proof. reflexivity. Qed.

(** A run of [n] failed attempts none of which trips the timeout test leaves
    the loop through its condition, having counted [n] attempts. *)
Lemma wait_loop_exhausts (env : Env) (checker : Health.HealthChecker)
    (config : HealthCheckConfig) (currentStatus : M ServiceStatus)
    (start : Z) :
  always_fails checker ->
  forall (n fuel : nat) (a : Z) (s : Sys),
    (n < fuel)%nat ->
    (forall j, (j < n)%nat ->
       check_time env checker (interval config) s j - start
       < timeout config) ->
    Health.wait_loop env fuel checker config currentStatus start
      (JS.Int (a + Z.of_nat n)) a s
    = (Ok (Health.Exhausted (a + Z.of_nat n)),
       after_failed_attempts env checker (interval config) s n).
Proof.
  intros Hdown. induction n as [|n IH]; intros fuel a s Hfuel Htime.
  - destruct fuel as [|fuel]; [lia|].
    rewrite wait_loop_step. cbn [JS.lt_num Z.of_nat].
    rewrite Z.add_0_r, Z.ltb_irrefl. reflexivity.
  - destruct fuel as [|fuel]; [lia|].
    rewrite wait_loop_step. cbn [JS.lt_num].
    replace (a <? a + Z.of_nat (S n)) with true
      by (symmetry; apply Z.ltb_lt; lia).
    assert (H0 : check_time env checker (interval config) s 0 - start
                 < timeout config)
      by (apply Htime; lia).
    unfold check_time in H0. cbn [after_failed_attempts] in H0.
    cbn [after_failed_attempts]. unfold after_failed_attempt.
    unfold bind at 1. pose proof (Hdown s) as Hfalse.
    destruct (Health.check checker s) as [r s1] eqn:Hc. cbn [fst snd] in *.
    subst r.
    unfold bind at 1, date_now at 1.
    replace (timeout config <=? now s1 - start) with false
      by (symmetry; apply Z.leb_gt; exact H0).
    unfold bind at 1, sleep at 1.
    replace (a + Z.of_nat (S n)) with ((a + 1) + Z.of_nat n) by lia.
    apply (IH fuel (a + 1) (slept env (interval config) s1)); [lia|].
    intros j Hj. specialize (Htime (S j)).
    unfold check_time in Htime. cbn [after_failed_attempts] in Htime.
    unfold after_failed_attempt in Htime. rewrite Hc in Htime.
    apply Htime. lia.
Qed.

(** The whole of [waitForHealth] on a probe that always fails, when the
    attempt budget is the integer [m] and no timeout test trips. *)
Lemma waitForHealth_exhausts (env : Env) (checker : Health.HealthChecker)
    (config : HealthCheckConfig) (currentStatus : M ServiceStatus)
    (fuel : nat) (s : Sys) (m : Z) :
  Health.maxAttemptsOf config = JS.Int m ->
  0 <= m ->
  (Z.to_nat m < fuel)%nat ->
  always_fails checker ->
  (forall j, (j < Z.to_nat m)%nat ->
     check_time env checker (interval config) s j - now s < timeout config) ->
  Health.waitForHealth env fuel checker config currentStatus s
  = match currentStatus
            (after_failed_attempts env checker (interval config) s
               (Z.to_nat m)) with
    | (Ok st, s') =>
        (Throw (HealthCheckError "Health check failed after maximum attempts"
                  st m), s')
    | (Throw e, s') => (Throw e, s')
    | (OutOfFuel, s') => (OutOfFuel, s')
    end.
Proof.
  intros Hmax Hm Hfuel Hdown Htime.
  unfold Health.waitForHealth. unfold bind at 1, date_now at 1.
  rewrite Hmax. unfold bind at 1.
  replace (JS.Int m) with (JS.Int (0 + Z.of_nat (Z.to_nat m)))
    by (f_equal; lia).
  rewrite (wait_loop_exhausts env checker config currentStatus (now s)
             Hdown (Z.to_nat m) fuel 0 s Hfuel Htime).
  unfold bind at 1.
  destruct (currentStatus _) as [[st| e |] s']; try reflexivity.
  unfold throw. do 3 f_equal. lia.
Qed.

(** With probes answered within [L] ms and timers late by at most [J] ms,
    the clock at the timeout test of attempt [j] is bounded. *)
Lemma check_time_bound (env : Env) (checker : Health.HealthChecker)
    (ms L J : Z) :
  (forall s, now (snd (Health.check checker s)) <= now s + L) ->
  (forall k, timer_overshoot env k <= J) ->
  forall (j : nat) (s : Sys),
    check_time env checker ms s j
    <= now s + (Z.of_nat j + 1) * L + Z.of_nat j * (timer_delay ms + J).
Proof.
  intros HL HJ. unfold check_time.
  induction j as [|j IH]; intros s.
  - cbn [after_failed_attempts Z.of_nat]. specialize (HL s). lia.
  - cbn [after_failed_attempts].
    specialize (IH (after_failed_attempt env checker ms s)).
    unfold after_failed_attempt at 2 in IH. cbn [slept now sleeps] in IH.
    specialize (HL s).
    specialize (HJ (sleeps (snd (Health.check checker s)))).
    rewrite Nat2Z.inj_succ. nia.
Qed.

Lemma always_fails_when_down (env : Env) (port : Z) (endpoint : string) :
  (forall k, healthy_at env port endpoint k = false) ->
  always_fails (Health.ServiceHealthChecker env port endpoint).
Proof. intros H s. rewrite check_probe. cbn [fst]. now rewrite H. Qed.

(** C1. A probe that always fails drives [waitForHealth] into the
    attempt-exhaustion error, carrying the attempt count [m] = maxAttempts,
    whenever none of the [m] timeout tests trips (the snapshot supplier
    returning normally).  In particular, with timeout 5000 ms, interval
    1000 ms and maxAttempts 3, probes answered within 900 ms and timers late
    by at most 100 ms, the error is the attempt-exhaustion error with 3
    attempts, not the timeout error. *)
Theorem waitForHealth_attempt_exhaustion :
  (forall (env : Env) (checker : Health.HealthChecker)
          (config : HealthCheckConfig) (currentStatus : M ServiceStatus)
          (fuel : nat) (s : Sys) (m : Z),
      Health.maxAttemptsOf config = JS.Int m ->
      0 <= m ->
      (Z.to_nat m < fuel)%nat ->
      always_fails checker ->
      (forall j, (j < Z.to_nat m)%nat ->
         check_time env checker (interval config) s j - now s
         < timeout config) ->
      always_returns currentStatus ->
      exists st s',
        Health.waitForHealth env fuel checker config currentStatus s
        = (Throw (HealthCheckError
                    "Health check failed after maximum attempts" st m), s'))
  /\
  (forall (env : Env) (checker : Health.HealthChecker)
          (currentStatus : M ServiceStatus) (fuel : nat) (s : Sys),
      (3 < fuel)%nat ->
      always_fails checker ->
      (forall s1, now (snd (Health.check checker s1)) <= now s1 + 900) ->
      (forall k, timer_overshoot env k <= 100) ->
      always_returns currentStatus ->
      exists st s',
        Health.waitForHealth env fuel checker budget_5000_1000_3
          currentStatus s
        = (Throw (HealthCheckError
                    "Health check failed after maximum attempts" st 3), s')).
Proof.
  assert (General :
    forall env checker config currentStatus fuel s m,
      Health.maxAttemptsOf config = JS.Int m ->
      0 <= m ->
      (Z.to_nat m < fuel)%nat ->
      always_fails checker ->
      (forall j, (j < Z.to_nat m)%nat ->
         check_time env checker (interval config) s j - now s
         < timeout config) ->
      always_returns currentStatus ->
      exists st s',
        Health.waitForHealth env fuel checker config currentStatus s
        = (Throw (HealthCheckError
                    "Health check failed after maximum attempts" st m), s')).
  { intros env checker config currentStatus fuel s m
      Hmax Hm Hfuel Hdown Htime Hsnap.
    rewrite (waitForHealth_exhausts env checker config currentStatus
               fuel s m Hmax Hm Hfuel Hdown Htime).
    destruct (Hsnap (after_failed_attempts env checker (interval config) s
                       (Z.to_nat m))) as [st [s2 Hst]].
    rewrite Hst. exists st, s2. reflexivity. }
  split; [exact General|].
  intros env checker currentStatus fuel s Hfuel Hdown HL HJ Hsnap.
  apply General; try assumption; try reflexivity; try lia.
  intros j Hj.
  pose proof (check_time_bound env checker (interval budget_5000_1000_3)
                900 100 HL HJ j s) as Hb.
  change (timer_delay (interval budget_5000_1000_3)) with 1000 in Hb.
  change (timeout budget_5000_1000_3) with 5000.
  change (Z.to_nat 3) with 3%nat in Hj.
  lia.
Qed.

Lemma waitForHealth_attempt_exhaustion_witness :
  exists st s',
    Health.waitForHealth env_down 4
      (Health.ServiceHealthChecker env_down 11434 "/api/tags")
      budget_5000_1000_3 (Base.getStatus env_down test_config) fresh
    = (Throw (HealthCheckError "Health check failed after maximum attempts"
                st 3), s').
Proof.
  apply (proj1 waitForHealth_attempt_exhaustion env_down
           (Health.ServiceHealthChecker env_down 11434 "/api/tags")
           budget_5000_1000_3 (Base.getStatus env_down test_config) 4%nat
           fresh 3).
  - reflexivity.
  - lia.
  - simpl; lia.
  - apply always_fails_when_down. intros k; reflexivity.
  - intros j Hj.
    destruct j as [|[|[|j]]]; [vm_compute; reflexivity ..|simpl in Hj; lia].
  - intros s1. rewrite getStatus_probe. eauto.
Defined.

(** ** The attempt budget *)





(** ** Starting a healthy service *)

Lemma startService_when_healthy (env : Env) (config : ServiceConfig)
    (platform : PlatformName) (processName : string)
    (processManager : ProcessManager) (fuel : nat) (s : Sys) :
  manager_healthy_at env config (fetches s) = true ->
  Strategy.startService env config platform processName processManager fuel s
  = (Ok tt, fetched env (manager_url config) s).
Proof.
  intros H. unfold Strategy.startService, try_catch, bind.
  rewrite checkHealth_probe, H. reflexivity.
Qed.

Lemma manager_startService_when_healthy (platform : PlatformName) (env : Env)
    (config : ServiceConfig) (fuel : nat) (s : Sys) :
  manager_healthy_at env config (fetches s) = true ->
  sm_startService (manager_for platform env config) fuel s
  = (Ok tt, fetched env (manager_url config) s).
Proof.
  intros H. destruct platform; cbn [manager_for sm_startService];
    apply startService_when_healthy; exact H.
Qed.

(** C4, as stated, fails: on a manager just created, with the service
    answering every probe, [checkHealth()] returns true and two calls of
    [startService()] in a row return normally, yet the stored state is still
    'stopped', not 'running', on either platform. *)
Lemma startService_healthy_leaves_state_stopped :
  fst (sm_checkHealth (manager_for unix (unkillable true) test_config) fresh)
  = Ok true
  /\ fst (sm_startService (manager_for unix (unkillable true) test_config) 0
            fresh)
     = Ok tt
  /\ fst (sm_startService (manager_for unix (unkillable true) test_config) 0
            (snd (sm_startService
                    (manager_for unix (unkillable true) test_config) 0
                    fresh)))
     = Ok tt
  /\ state (status (snd (sm_startService
                           (manager_for unix (unkillable true) test_config) 0
                           (snd (sm_startService
                                   (manager_for unix (unkillable true)
                                      test_config) 0 fresh)))))
     = StStopped
  /\ state (status (snd (sm_startService
                           (manager_for windows (unkillable true) test_config)
                           0
                           (snd (sm_startService
                                   (manager_for windows (unkillable true)
                                      test_config) 0 fresh)))))
     = StStopped.
Proof. repeat split; vm_compute; reflexivity. Qed.

(** C4, amended.  On either platform, [startService()] on a service whose
    probe answers healthy returns at once: two calls in a row both succeed,
    the only events are the two probes (no lookup, no kill, no spawn), and
    the stored status, its state included, is left exactly as it was before
    the calls, whatever it was.  The state 'running' comes with
    [getStatus()]: called next, it reports the verdict of its own probe, so
    'running' when that probe answers healthy too. *)
Theorem startService_healthy_is_noop (platform : PlatformName) (env : Env)
    (config : ServiceConfig) (fuel1 fuel2 : nat) (s : Sys) :
  manager_healthy_at env config (fetches s) = true ->
  manager_healthy_at env config (S (fetches s)) = true ->
  let sm := manager_for platform env config in
  let r1 := sm_startService sm fuel1 s in
  let r2 := sm_startService sm fuel2 (snd r1) in
  fst r1 = Ok tt
  /\ trace (snd r1) = (trace s ++ [EvFetch (manager_url config)])%list
  /\ fst r2 = Ok tt
  /\ trace (snd r2)
     = (trace (snd r1) ++ [EvFetch (manager_url config)])%list
  /\ process_ops (trace (snd r2)) = process_ops (trace s)
  /\ status (snd r1) = status s
  /\ status (snd r2) = status s
  /\ fst (sm_getStatus sm (snd r2))
     = Ok (refreshed (manager_healthy_at env config (S (S (fetches s))))
             (status s))
  /\ (manager_healthy_at env config (S (S (fetches s))) = true ->
      exists st,
        fst (sm_getStatus sm (snd r2)) = Ok st
        /\ running st = true /\ state st = StRunning).
Proof.
  intros H1 H2. cbv zeta.
  rewrite (manager_startService_when_healthy platform env config fuel1 s H1).
  cbn [fst snd].
  rewrite (manager_startService_when_healthy platform env config fuel2
             (fetched env (manager_url config) s) H2).
  cbn [fst snd fetched trace status].
  assert (Hget : fst (sm_getStatus (manager_for platform env config)
                        (fetched env (manager_url config)
                           (fetched env (manager_url config) s)))
                 = Ok (refreshed
                         (manager_healthy_at env config (S (S (fetches s))))
                         (status s))).
  { destruct platform; cbn [manager_for sm_getStatus];
      rewrite getStatus_probe; reflexivity. }
  repeat split.
  - unfold process_ops. rewrite !filter_app. cbn [filter is_process_op].
    now rewrite !app_nil_r.
  - exact Hget.
  - intros H3. rewrite Hget, H3. eexists. repeat split.
Qed.

Lemma startService_healthy_is_noop_witness :
  process_ops
    (trace (snd (sm_startService (manager_for unix (unkillable true)
                                    test_config) 0
                   (snd (sm_startService (manager_for unix (unkillable true)
                                            test_config) 0 fresh)))))
  = process_ops (trace fresh).
Proof.
  exact (proj1 (proj2 (proj2 (proj2 (proj2
           (startService_healthy_is_noop unix (unkillable true) test_config
              0 0 fresh eq_refl eq_refl)))))).
Defined.

(** ** Process lookup *)

Lemma unix_findProcess_eq (env : Env) (name : string) (s : Sys) :
  UnixProcessManager.findProcess env name s
  = (Ok (pgrep_finds env name (execs s)), executed env ("pgrep " ++ name) s).
Proof.
  unfold UnixProcessManager.findProcess, pgrep_finds, executed, try_catch,
    bind, execAsync, ret.
  destruct (exec_reply env (execs s) ("pgrep " ++ name)); reflexivity.
Qed.

Lemma windows_findProcess_eq (env : Env) (name : string) (s : Sys) :
  WindowsProcessManager.findProcess env name s
  = (Ok (tasklist_finds env name (execs s)),
     executed env (WindowsProcessManager.tasklist_command name) s).
Proof.
  unfold WindowsProcessManager.findProcess, tasklist_finds, executed,
    try_catch, bind, execAsync, ret, throw.
  destruct (exec_reply env (execs s)
              (WindowsProcessManager.tasklist_command name)) as [out|e];
    [|reflexivity].
  destruct (RegExp.match_pid env name out) as [| |[[|c digits]|]];
    reflexivity.
Qed.

(** ** Stopping a service that is not healthy *)

Lemma windows_stop_unhealthy_eq (env : Env) (config : ServiceConfig)
    (s : Sys) :
  manager_healthy_at env config (fetches s) = false ->
  WindowsServiceManager.stopService env config s
  = (Ok tt, set_status (stopped_status (status s))
              (fetched env (manager_url config) s)).
Proof.
  intros H. unfold WindowsServiceManager.stopService, try_catch, bind.
  rewrite checkHealth_probe, H. reflexivity.
Qed.

Lemma unix_stopProcess_none (env : Env) (name : string) (s : Sys) :
  pgrep_finds env name (execs s) = None ->
  UnixProcessManager.stopProcess env name s
  = (Ok tt, executed env ("pgrep " ++ name) s).
Proof.
  intros H. unfold UnixProcessManager.stopProcess, bind.
  rewrite unix_findProcess_eq, H. reflexivity.
Qed.

Lemma unix_stop_no_process_eq (env : Env) (s : Sys) :
  pgrep_finds env "ollama" (execs s) = None ->
  UnixServiceManager.stopService env s
  = (Ok tt,
     set_status (stopped_status
                   (Base.merge (status s) (Base.only_state StStopping)))
       (executed env "pgrep ollama" s)).
Proof.
  intros H.
  unfold UnixServiceManager.stopService, try_catch, bind, Base.updateStatus,
    bind, get_status, put_status.
  cbn [stopProcess UnixServiceManager.processManager
       UnixProcessManager.manager].
  rewrite unix_stopProcess_none by exact H.
  reflexivity.
Qed.

(** The Unix [stopService] begins with the lookup, whatever the health. *)
Lemma unix_stop_begins_with_lookup (env : Env) (s : Sys) :
  exists tail,
    trace (snd (UnixServiceManager.stopService env s))
    = (trace s ++ EvExec "pgrep ollama" :: tail)%list.
Proof.
  unfold UnixServiceManager.stopService, try_catch, bind, Base.updateStatus,
    bind, get_status, put_status.
  cbn [stopProcess UnixServiceManager.processManager
       UnixProcessManager.manager].
  unfold UnixProcessManager.stopProcess, bind.
  rewrite unix_findProcess_eq.
  destruct (pgrep_finds env "ollama" (execs (set_status _ s))) as [p|].
  - unfold execAsync, sleep. cbn [execs executed set_status trace].
    destruct (exec_reply env _ _); cbn;
      rewrite <- ?app_assoc; cbn; eauto.
  - cbn. eauto.
Qed.

(** C5, as stated, fails on Unix: with the service not healthy, a process
    that answers the lookup and refuses the kill makes [stopService()] raise,
    after a lookup and a kill, with the state left at 'stopping'. *)
Lemma unix_stopService_unhealthy_raises :
  fst (Base.checkHealth (unkillable false) test_config fresh) = Ok false
  /\ UnixServiceManager.stopService (unkillable false) fresh
     = (Throw (ProcessError "Failed to stop process" "ollama" OpStop
                 (Some (PlainError "Operation not permitted"))),
        mkSys 0 0 2 0 0 [EvExec "pgrep ollama"; EvExec "kill 4242"]
          (mkStatus false StStopping None None)).
Proof. split; vm_compute; reflexivity. Qed.

(** C5, amended.  The Windows manager whose probe answers unhealthy stops
    successfully, ends in state 'stopped' with [running] false, and does
    nothing but that probe.  The Unix manager does not probe: it always
    begins with the process lookup, and when the lookup finds no process it
    stops successfully, ends in state 'stopped' with [running] false, and
    has issued the lookup only (no kill). *)
Theorem stopService_when_unhealthy :
  (forall (env : Env) (config : ServiceConfig) (s : Sys),
      manager_healthy_at env config (fetches s) = false ->
      let r := WindowsServiceManager.stopService env config s in
      fst r = Ok tt
      /\ state (status (snd r)) = StStopped
      /\ running (status (snd r)) = false
      /\ trace (snd r) = (trace s ++ [EvFetch (manager_url config)])%list
      /\ process_ops (trace (snd r)) = process_ops (trace s))
  /\
  (forall (env : Env) (s : Sys),
      let r := UnixServiceManager.stopService env s in
      (exists tail,
          trace (snd r) = (trace s ++ EvExec "pgrep ollama" :: tail)%list)
      /\ (pgrep_finds env "ollama" (execs s) = None ->
          fst r = Ok tt
          /\ state (status (snd r)) = StStopped
          /\ running (status (snd r)) = false
          /\ trace (snd r) = (trace s ++ [EvExec "pgrep ollama"])%list)).
Proof.
  split.
  - intros env config s H. cbv zeta.
    rewrite windows_stop_unhealthy_eq by exact H.
    cbn [fst snd status set_status trace fetched stopped_status Base.merge
         Base.running_and_state upd_running upd_state state running].
    repeat split.
    unfold process_ops. rewrite filter_app. cbn [filter is_process_op].
    now rewrite app_nil_r.
  - intros env s. cbv zeta. split.
    + apply unix_stop_begins_with_lookup.
    + intros H. rewrite unix_stop_no_process_eq by exact H.
      cbn. repeat split.
Qed.

Lemma stopService_when_unhealthy_witness :
  fst (WindowsServiceManager.stopService env_down test_config fresh) = Ok tt
  /\ fst (UnixServiceManager.stopService env_down fresh) = Ok tt.
Proof.
  split.
  - exact (proj1 (proj1 stopService_when_unhealthy env_down test_config fresh
                    eq_refl)).
  - exact (proj1 (proj2 (proj2 stopService_when_unhealthy env_down fresh)
                    eq_refl)).
Defined.

(** ** Totality of the process lookup *)

Lemma unix_isProcessRunning_eq (env : Env) (name : string) (s : Sys) :
  UnixProcessManager.isProcessRunning env name s
  = (Ok (is_some (pgrep_finds env name (execs s))),
     executed env ("pgrep " ++ name) s).
Proof.
  unfold UnixProcessManager.isProcessRunning, bind.
  rewrite unix_findProcess_eq. reflexivity.
Qed.

Lemma windows_isProcessRunning_eq (env : Env) (name : string) (s : Sys) :
  WindowsProcessManager.isProcessRunning env name s
  = (Ok (is_some (tasklist_finds env name (execs s))),
     executed env (WindowsProcessManager.tasklist_command name) s).
Proof.
  unfold WindowsProcessManager.isProcessRunning, bind.
  rewrite windows_findProcess_eq. reflexivity.
Qed.

(** C10, as stated, fails on Windows: the row of the idle process parses to
    the pid 0, and the lookup answers a ProcessInfo with pid 0, not null. *)
Lemma windows_findProcess_returns_pid_zero :
  fst (WindowsProcessManager.findProcess env_idle "System Idle Process" fresh)
  = Ok (Some (ProcessInfo.mk (JS.Int 0) "System Idle Process"))
  /\ JS.truthy (JS.Int 0) = false
  /\ fst (WindowsProcessManager.isProcessRunning env_idle
            "System Idle Process" fresh)
     = Ok true.
Proof. repeat split; vm_compute; reflexivity. Qed.

(** C10, amended.  On both platforms [findProcess] returns a ProcessInfo or
    null and never raises, and so does [isProcessRunning]; a failing lookup
    command yields null.  On Unix an output that does not parse to a nonzero
    number yields null, and any other output the ProcessInfo of the parsed
    pid.  On Windows an output in which the pattern finds no pid yields null,
    and any other output the ProcessInfo of the digits found, be they 0. *)
Theorem findProcess_is_total :
  (forall (env : Env) (name : string) (s : Sys),
      exists r,
        UnixProcessManager.findProcess env name s
        = (Ok r, executed env ("pgrep " ++ name) s)
        /\ (forall e, exec_reply env (execs s) ("pgrep " ++ name) = Failed e ->
            r = None)
        /\ (forall out,
              exec_reply env (execs s) ("pgrep " ++ name) = Completed out ->
              JS.truthy (JS.parseInt (JS.trim out)) = false -> r = None)
        /\ (forall out,
              exec_reply env (execs s) ("pgrep " ++ name) = Completed out ->
              JS.truthy (JS.parseInt (JS.trim out)) = true ->
              r = Some (ProcessInfo.mk (JS.parseInt (JS.trim out)) name)))
  /\
  (forall (env : Env) (name : string) (s : Sys),
      exists r,
        WindowsProcessManager.findProcess env name s
        = (Ok r, executed env (WindowsProcessManager.tasklist_command name) s)
        /\ (forall e,
              exec_reply env (execs s)
                (WindowsProcessManager.tasklist_command name) = Failed e ->
              r = None)
        /\ (forall out,
              exec_reply env (execs s)
                (WindowsProcessManager.tasklist_command name) = Completed out ->
              captures_pid (RegExp.match_pid env name out) = false ->
              r = None)
        /\ (forall out c digits,
              exec_reply env (execs s)
                (WindowsProcessManager.tasklist_command name) = Completed out ->
              RegExp.match_pid env name out
              = RxMatch (Some (String c digits)) ->
              r = Some (ProcessInfo.mk (JS.parseInt (String c digits)) name)))
  /\
  (forall (env : Env) (name : string) (s : Sys),
      (exists b s', UnixProcessManager.isProcessRunning env name s = (Ok b, s'))
      /\ (exists b s',
             WindowsProcessManager.isProcessRunning env name s = (Ok b, s'))).
Proof.
  split; [|split].
  - intros env name s. exists (pgrep_finds env name (execs s)).
    split; [apply unix_findProcess_eq|].
    unfold pgrep_finds.
    repeat split; intros; rewrite H; try reflexivity; now rewrite H0.
  - intros env name s. exists (tasklist_finds env name (execs s)).
    split; [apply windows_findProcess_eq|].
    unfold tasklist_finds.
    repeat split; intros; rewrite H; try reflexivity.
    + unfold captures_pid in H0.
      destruct (RegExp.match_pid env name out) as [| |[[|c digits]|]];
        try reflexivity; discriminate.
    + now rewrite H0.
  - intros env name s. split.
    + rewrite unix_isProcessRunning_eq. eauto.
    + rewrite windows_isProcessRunning_eq. eauto.
Qed.

Lemma findProcess_is_total_witness :
  fst (UnixProcessManager.findProcess env_down "ollama" fresh) = Ok None
  /\ fst (UnixProcessManager.findProcess (unkillable true) "ollama" fresh)
     = Ok (Some (ProcessInfo.mk (JS.Int 4242) "ollama")).
Proof.
  split.
  - destruct (proj1 findProcess_is_total env_down "ollama" fresh)
      as [r [Heq [Hfail _]]].
    rewrite Heq. cbn [fst]. f_equal.
    apply (Hfail (PlainError "Command failed")). reflexivity.
  - destruct (proj1 findProcess_is_total (unkillable true) "ollama" fresh)
      as [r [Heq [_ [_ Hfound]]]].
    rewrite Heq. cbn [fst]. f_equal.
    apply (Hfound ("4242" ++ line_feed)); reflexivity.
Defined.

(** ** Stop escalation *)

(** C6, evaluated where it fails.  On Windows, the service healthy and every
    [taskkill] refused: the forced stop is issued twice (once by the process
    manager, once more by the service manager) before the ProcessError, and
    the state is left at 'stopping'.  On Unix, the kill refused: no forced
    stop is issued before the ProcessError, and the state is left at
    'stopping'. *)
Theorem stop_escalation_when_kills_fail :
  WindowsServiceManager.stopService (unkillable true) test_config fresh
  = (Throw (ProcessError "Failed to force stop process" "ollama.exe" OpStop
              (Some (PlainError "Operation not permitted"))),
     mkSys 10 1 3 0 0
       [EvFetch "http://127.0.0.1:11434/api/tags";
        EvExec "taskkill /IM ollama.exe";
        EvExec "taskkill /F /IM ollama.exe";
        EvExec "taskkill /F /IM ollama.exe"]
       (mkStatus false StStopping None None))
  /\ UnixServiceManager.stopService (unkillable true) fresh
     = (Throw (ProcessError "Failed to stop process" "ollama" OpStop
                 (Some (PlainError "Operation not permitted"))),
        mkSys 0 0 2 0 0 [EvExec "pgrep ollama"; EvExec "kill 4242"]
          (mkStatus false StStopping None None)).
Proof. split; vm_compute; reflexivity. Qed.

(** ** Failures of [startService] *)

Lemma check_always_returns (env : Env) (port : Z) (endpoint : string) :
  always_returns (Health.check (Health.ServiceHealthChecker env port endpoint)).
Proof. intros s. rewrite check_probe. eauto. Qed.

Lemma getStatus_always_returns (env : Env) (config : ServiceConfig) :
  always_returns (Base.getStatus env config).
Proof. intros s. rewrite getStatus_probe. eauto. Qed.

(** The loop raises nothing but the timeout error. *)
Lemma wait_loop_throws (env : Env) (checker : Health.HealthChecker)
    (config : HealthCheckConfig) (currentStatus : M ServiceStatus)
    (start : Z) (bound : JS.number) :
  always_returns (Health.check checker) ->
  always_returns currentStatus ->
  forall (fuel : nat) (attempts : Z) (s : Sys) (e : JsError) (s' : Sys),
    Health.wait_loop env fuel checker config currentStatus start bound
      attempts s = (Throw e, s') ->
    e = TimeoutError "Health check timed out" "health_check" (timeout config).
Proof.
  intros Hcheck Hsnap.
  induction fuel as [|fuel IH]; intros attempts s e s' H.
  - discriminate.
  - rewrite wait_loop_step in H.
    destruct (JS.lt_num attempts bound); [|discriminate].
    unfold bind at 1 in H.
    destruct (Hcheck s) as [healthy [s1 Hc]]. rewrite Hc in H.
    destruct healthy; [discriminate|].
    unfold bind at 1, date_now at 1 in H.
    destruct (timeout config <=? now s1 - start).
    + unfold bind at 1 in H.
      destruct (Hsnap s1) as [st [s2 Hs]]. rewrite Hs in H.
      unfold throw in H. now injection H as <- _.
    + unfold bind at 1, sleep at 1 in H.
      exact (IH _ _ _ _ H).
Qed.

Lemma waitForHealth_throws (env : Env) (checker : Health.HealthChecker)
    (config : HealthCheckConfig) (currentStatus : M ServiceStatus)
    (fuel : nat) (s : Sys) (e : JsError) (s' : Sys) :
  always_returns (Health.check checker) ->
  always_returns currentStatus ->
  Health.waitForHealth env fuel checker config currentStatus s
  = (Throw e, s') ->
  e = TimeoutError "Health check timed out" "health_check" (timeout config)
  \/ exists st n,
       e = HealthCheckError "Health check failed after maximum attempts" st n.
Proof.
  intros Hcheck Hsnap H.
  unfold Health.waitForHealth in H. unfold bind at 1, date_now at 1 in H.
  unfold bind at 1 in H.
  destruct (Health.wait_loop env fuel checker config currentStatus (now s)
              (Health.maxAttemptsOf config) 0 s) as [[r| e1 |] s1] eqn:Hloop.
  - destruct r as [|n]; [discriminate|].
    unfold bind at 1 in H.
    destruct (Hsnap s1) as [st [s2 Hs]]. rewrite Hs in H.
    unfold throw in H. injection H as <- _. right. eauto.
  - injection H as <- _. left.
    exact (wait_loop_throws env checker config currentStatus (now s)
             (Health.maxAttemptsOf config) Hcheck Hsnap _ _ _ _ _ Hloop).
  - discriminate.
Qed.

Lemma manager_startService_eq (platform : PlatformName) (env : Env)
    (config : ServiceConfig) (fuel : nat) :
  sm_startService (manager_for platform env config) fuel
  = Strategy.startService env config platform (process_name platform)
      (process_manager platform env) fuel.
Proof. destruct platform; reflexivity. Qed.

(** Past the failed probe, [startService] is its three steps under the
    outermost [catch]. *)
Lemma startService_when_unhealthy (env : Env) (config : ServiceConfig)
    (platform : PlatformName) (processName : string)
    (processManager : ProcessManager) (fuel : nat) (s : Sys) :
  manager_healthy_at env config (fetches s) = false ->
  Strategy.startService env config platform processName processManager fuel s
  = try_catch
      (Strategy.stop_existing processName processManager ;;;
       Strategy.start_command config processName processManager ;;;
       Strategy.await_health env config fuel)
      (Strategy.rethrow platform "start")
      (starting env config s).
Proof.
  intros H. unfold Strategy.startService, try_catch at 1, bind at 1.
  rewrite checkHealth_probe, H.
  unfold bind at 1. reflexivity.
Qed.

(** C2, as stated, fails.  With the service down, the health-wait failure
    reaches the caller wrapped in a PlatformError, the status is never set to
    'error' and no [lastError] is recorded, and [getStatus()] then shows
    'stopped'.  With a stray process that cannot be killed, the ProcessError
    reaches the caller with the state left at 'starting'. *)
Lemma startService_failure_is_wrapped_and_not_recorded :
  let r := UnixServiceManager.startService env_down test_config 20 fresh in
  let q := UnixServiceManager.startService (unkillable false) test_config
             20 fresh in
  fst r
  = Throw (PlatformError "Failed to start service on Unix platform" unix
             "start"
             (Some (HealthCheckError
                      "Health check failed after maximum attempts"
                      (mkStatus false StStopped None None) 10)))
  /\ status (snd r) = mkStatus false StStopped None None
  /\ fst (Base.getStatus env_down test_config (snd r))
     = Ok (mkStatus false StStopped None None)
  /\ fst q
     = Throw (ProcessError "Failed to stop existing process" "ollama" OpStop
                (Some (PlainError "Operation not permitted")))
  /\ status (snd q) = mkStatus false StStarting None None
  /\ fst (Base.getStatus (unkillable false) test_config (snd q))
     = Ok (mkStatus false StStopped None None).
Proof. cbv zeta. repeat split; vm_compute; reflexivity. Qed.

(** C2, amended.  On either platform, a failure inside [startService]
    reaches its caller as a typed error and is never swallowed: a failure to
    stop the stray process as the ProcessError of operation 'stop' and a
    failure to spawn as the ProcessError of operation 'start', each carrying
    the cause and not wrapped again; a failure of the health wait, which is a
    TimeoutError or a HealthCheckError, as the cause of a PlatformError of
    operation 'start'. *)
Theorem startService_failure_reaches_caller (platform : PlatformName)
    (env : Env) (config : ServiceConfig) (fuel : nat) (s : Sys) :
  manager_healthy_at env config (fetches s) = false ->
  let sm := manager_for platform env config in
  let name := process_name platform in
  let pm := process_manager platform env in
  (forall c s2,
      Strategy.stop_existing_body name pm (starting env config s)
      = (Throw c, s2) ->
      sm_startService sm fuel s
      = (Throw (ProcessError "Failed to stop existing process" name OpStop
                  (Some c)), s2))
  /\ (forall s2 c s3,
        Strategy.stop_existing_body name pm (starting env config s)
        = (Ok tt, s2) ->
        startProcess pm (command config) s2 = (Throw c, s3) ->
        sm_startService sm fuel s
        = (Throw (ProcessError "Failed to start process" name OpStart
                    (Some c)), s3))
  /\ (forall s2 s3 c s4,
        Strategy.stop_existing_body name pm (starting env config s)
        = (Ok tt, s2) ->
        startProcess pm (command config) s2 = (Ok tt, s3) ->
        Strategy.await_health env config fuel s3 = (Throw c, s4) ->
        sm_startService sm fuel s
        = (Throw (PlatformError
                    ("Failed to start service on "
                     ++ Strategy.platform_label platform ++ " platform")
                    platform "start" (Some c)), s4)
        /\ (c = TimeoutError "Health check timed out" "health_check"
                  (timeout (healthCheck config))
            \/ exists st n,
                 c = HealthCheckError
                       "Health check failed after maximum attempts" st n)).
Proof.
  intros Hdown. cbv zeta. rewrite manager_startService_eq.
  rewrite startService_when_unhealthy by exact Hdown.
  split; [|split].
  - intros c s2 Hstop.
    unfold try_catch at 1, bind at 1, Strategy.stop_existing, try_catch at 1.
    rewrite Hstop. reflexivity.
  - intros s2 c s3 Hstop Hspawn.
    unfold try_catch at 1, bind at 1, Strategy.stop_existing, try_catch at 1.
    rewrite Hstop.
    unfold bind at 1, Strategy.start_command, try_catch at 1.
    rewrite Hspawn. reflexivity.
  - intros s2 s3 c s4 Hstop Hspawn Hwait.
    assert (Hkind :
      c = TimeoutError "Health check timed out" "health_check"
            (timeout (healthCheck config))
      \/ exists st n,
           c = HealthCheckError "Health check failed after maximum attempts"
                 st n).
    { unfold Strategy.await_health, Base.waitForHealth in Hwait.
      exact (waitForHealth_throws env _ _ _ fuel s3 c s4
               (check_always_returns env (port config) "/api/tags")
               (getStatus_always_returns env config) Hwait). }
    split; [|exact Hkind].
    unfold try_catch at 1, bind at 1, Strategy.stop_existing, try_catch at 1.
    rewrite Hstop.
    unfold bind at 1, Strategy.start_command, try_catch at 1.
    rewrite Hspawn, Hwait.
    destruct Hkind as [-> | [st [n ->]]]; destruct platform; reflexivity.
Qed.

Lemma startService_failure_reaches_caller_witness :
  UnixServiceManager.startService (unkillable false) test_config 20 fresh
  = (Throw (ProcessError "Failed to stop existing process" "ollama" OpStop
              (Some (PlainError "Operation not permitted"))),
     mkSys 10 1 3 0 0
       [EvFetch "http://127.0.0.1:11434/api/tags"; EvExec "pgrep ollama";
        EvExec "pgrep ollama"; EvExec "kill 4242"]
       (mkStatus false StStarting None None)).
Proof.
  apply (proj1 (startService_failure_reaches_caller unix (unkillable false)
                  test_config 20 fresh eq_refl)).
  vm_compute. reflexivity.
Defined.

(** ** The status invariant *)

Lemma preserves_ret {A : Type} (a : A) : preserves (ret a).
Proof. intros s H. exact H. Qed.

Lemma preserves_throw {A : Type} (e : JsError) : preserves (@throw A e).
Proof. intros s H. exact H. Qed.

Lemma preserves_bind {A B : Type} (m : M A) (k : A -> M B) :
  preserves m -> (forall a, preserves (k a)) -> preserves (bind m k).
Proof.
  intros Hm Hk s H. unfold bind. specialize (Hm s H).
  destruct (m s) as [[a| e |] s1]; cbn [snd] in *; [|assumption ..].
  exact (Hk a s1 Hm).
Qed.

Lemma preserves_try_catch {A : Type} (m : M A) (h : JsError -> M A) :
  preserves m -> (forall e, preserves (h e)) -> preserves (try_catch m h).
Proof.
  intros Hm Hh s H. unfold try_catch. specialize (Hm s H).
  destruct (m s) as [[a| e |] s1]; cbn [snd] in *; [assumption| |assumption].
  exact (Hh e s1 Hm).
Qed.

(** The calls to the outside world leave the stored status alone. *)
Lemma preserves_frame {A : Type} (m : M A) :
  (forall s, status (snd (m s)) = status s) -> preserves m.
Proof. intros Hm s H. rewrite Hm. exact H. Qed.

Lemma preserves_fetch (env : Env) (url : string) : preserves (fetch env url).
Proof.
  apply preserves_frame. intros s. unfold fetch.
  destruct (fetch_reply env (fetches s) url); reflexivity.
Qed.

Lemma preserves_execAsync (env : Env) (cmd : string) :
  preserves (execAsync env cmd).
Proof.
  apply preserves_frame. intros s. unfold execAsync.
  destruct (exec_reply env (execs s) cmd); reflexivity.
Qed.

Lemma preserves_spawn_detached (env : Env) (cmd : string) :
  preserves (spawn_detached env cmd).
Proof.
  apply preserves_frame. intros s. unfold spawn_detached.
  destruct (spawn_reply env (spawns s) cmd); reflexivity.
Qed.

Lemma preserves_sleep (env : Env) (ms : Z) : preserves (sleep env ms).
Proof. apply preserves_frame. reflexivity. Qed.

Lemma preserves_date_now : preserves date_now.
Proof. apply preserves_frame. reflexivity. Qed.

Lemma preserves_get_status : preserves get_status.
Proof. apply preserves_frame. reflexivity. Qed.

(** A merge that names a state other than 'running' and leaves [running]
    alone, and the merge [{ running: false, state: 'stopped' }]. *)
Lemma preserves_updateStatus_only_state (x : ServiceState) :
  x <> StRunning -> preserves (Base.updateStatus (Base.only_state x)).
Proof.
  intros Hx s _ Hstate. cbn in Hstate. contradiction.
Qed.

Lemma preserves_updateStatus_stopped :
  preserves (Base.updateStatus (Base.running_and_state false StStopped)).
Proof. intros s _ Hstate. cbn in Hstate. discriminate. Qed.

Lemma preserves_updateStatus_starting :
  preserves (Base.updateStatus (Base.only_state StStarting)).
Proof. apply preserves_updateStatus_only_state. discriminate. Qed.

Lemma preserves_updateStatus_stopping :
  preserves (Base.updateStatus (Base.only_state StStopping)).
Proof. apply preserves_updateStatus_only_state. discriminate. Qed.

Create HintDb preserve.

#[local] Hint Resolve preserves_fetch preserves_execAsync
  preserves_spawn_detached preserves_sleep preserves_date_now
  preserves_get_status preserves_updateStatus_stopped
  preserves_updateStatus_starting preserves_updateStatus_stopping
  : preserve.

Ltac preserve_step :=
  match goal with
  | |- preserves (bind _ _) => apply preserves_bind; [|intro]
  | |- preserves (try_catch _ _) => apply preserves_try_catch; [|intro]
  | |- preserves (ret _) => apply preserves_ret
  | |- preserves (throw _) => apply preserves_throw
  | |- preserves (match ?x with _ => _ end) => destruct x
  | |- preserves _ => solve [auto with preserve]
  end.

Ltac preserve := repeat preserve_step.

Lemma preserves_check (env : Env) (port : Z) (endpoint : string) :
  preserves (Health.check (Health.ServiceHealthChecker env port endpoint)).
Proof. cbn [Health.check Health.ServiceHealthChecker]. preserve. Qed.

Lemma preserves_checkHealth (env : Env) (config : ServiceConfig) :
  preserves (Base.checkHealth env config).
Proof. apply preserves_check. Qed.

(** [getStatus] does more: it leaves the two fields in agreement. *)
Lemma getStatus_consistent (env : Env) (config : ServiceConfig) (s : Sys) :
  consistent (status (snd (Base.getStatus env config s))) = true.
Proof.
  rewrite getStatus_probe. cbn [snd status set_status].
  destruct (manager_healthy_at env config (fetches s)); reflexivity.
Qed.

Lemma consistent_running_when_state_running (st : ServiceStatus) :
  consistent st = true -> running_when_state_running st.
Proof.
  unfold consistent, running_when_state_running. intros H Hstate.
  rewrite Hstate in H. cbn in H.
  destruct (running st); [reflexivity|discriminate].
Qed.

Lemma preserves_getStatus (env : Env) (config : ServiceConfig) :
  preserves (Base.getStatus env config).
Proof.
  intros s _. apply consistent_running_when_state_running.
  apply getStatus_consistent.
Qed.

#[local] Hint Resolve preserves_check preserves_checkHealth
  preserves_getStatus : preserve.

Lemma preserves_wait_loop (env : Env) (checker : Health.HealthChecker)
    (config : HealthCheckConfig) (currentStatus : M ServiceStatus)
    (start : Z) (bound : JS.number) :
  preserves (Health.check checker) ->
  preserves currentStatus ->
  forall (fuel : nat) (attempts : Z),
    preserves (Health.wait_loop env fuel checker config currentStatus start
                 bound attempts).
Proof.
  intros Hcheck Hsnap. induction fuel as [|fuel IH]; intros attempts.
  - intros s H. exact H.
  - rewrite wait_loop_step. preserve.
Qed.

Lemma preserves_waitForHealth (env : Env) (checker : Health.HealthChecker)
    (config : HealthCheckConfig) (currentStatus : M ServiceStatus)
    (fuel : nat) :
  preserves (Health.check checker) ->
  preserves currentStatus ->
  preserves (Health.waitForHealth env fuel checker config currentStatus).
Proof.
  intros Hcheck Hsnap. unfold Health.waitForHealth. preserve.
  apply preserves_wait_loop; assumption.
Qed.

Lemma preserves_base_waitForHealth (env : Env) (config : ServiceConfig)
    (fuel : nat) (checker : Health.HealthChecker) :
  preserves (Health.check checker) ->
  preserves (Base.waitForHealth env config fuel checker).
Proof.
  intros Hcheck. unfold Base.waitForHealth.
  apply preserves_waitForHealth; auto with preserve.
Qed.

Lemma preserves_unix_findProcess (env : Env) (name : string) :
  preserves (UnixProcessManager.findProcess env name).
Proof. unfold UnixProcessManager.findProcess. preserve. Qed.

Lemma preserves_windows_findProcess (env : Env) (name : string) :
  preserves (WindowsProcessManager.findProcess env name).
Proof. unfold WindowsProcessManager.findProcess. preserve. Qed.

#[local] Hint Resolve preserves_unix_findProcess
  preserves_windows_findProcess : preserve.

Lemma preserves_process_manager (platform : PlatformName) (env : Env) :
  let pm := process_manager platform env in
  (forall name, preserves (findProcess pm name))
  /\ (forall cmd, preserves (startProcess pm cmd))
  /\ (forall name, preserves (stopProcess pm name))
  /\ (forall name, preserves (forceStopProcess pm name))
  /\ (forall name, preserves (isProcessRunning pm name)).
Proof.
  destruct platform; cbv zeta;
    cbn [process_manager UnixProcessManager.manager
         WindowsProcessManager.manager findProcess startProcess stopProcess
         forceStopProcess isProcessRunning];
    repeat split; intros;
    unfold UnixProcessManager.startProcess, UnixProcessManager.stopProcess,
      UnixProcessManager.forceStopProcess,
      UnixProcessManager.isProcessRunning,
      WindowsProcessManager.startProcess, WindowsProcessManager.stopProcess,
      WindowsProcessManager.forceStopProcess,
      WindowsProcessManager.isProcessRunning;
    preserve.
Qed.

Lemma preserves_rethrow (platform : PlatformName) (operation : string)
    (error : JsError) :
  preserves (Strategy.rethrow platform operation error).
Proof. unfold Strategy.rethrow. cbv zeta. preserve. Qed.

#[local] Hint Resolve preserves_rethrow : preserve.

Lemma preserves_startService (platform : PlatformName) (env : Env)
    (config : ServiceConfig) (fuel : nat) :
  preserves (sm_startService (manager_for platform env config) fuel).
Proof.
  rewrite manager_startService_eq.
  destruct (preserves_process_manager platform env)
    as [_ [Hstart [Hstop [_ Hrunning]]]].
  unfold Strategy.startService, Strategy.stop_existing,
    Strategy.stop_existing_body, Strategy.start_command,
    Strategy.await_health.
  preserve.
  apply preserves_base_waitForHealth. apply preserves_check.
Qed.

Lemma preserves_wait_until_down (env : Env) (config : ServiceConfig)
    (remaining : nat) :
  preserves (WindowsServiceManager.wait_until_down env config remaining).
Proof.
  induction remaining as [|remaining IH];
    cbn [WindowsServiceManager.wait_until_down]; preserve.
Qed.

#[local] Hint Resolve preserves_wait_until_down : preserve.

Lemma preserves_stopService (platform : PlatformName) (env : Env)
    (config : ServiceConfig) :
  preserves (sm_stopService (manager_for platform env config)).
Proof.
  destruct platform; cbn [manager_for sm_stopService].
  - destruct (preserves_process_manager unix env)
      as [_ [_ [Hstop _]]].
    unfold UnixServiceManager.stopService,
      UnixServiceManager.processManager.
    preserve.
  - destruct (preserves_process_manager windows env)
      as [_ [_ [Hstop [Hforce _]]]].
    unfold WindowsServiceManager.stopService,
      WindowsServiceManager.processManager.
    preserve.
Qed.

Lemma reachable_running_when_state_running (platform : PlatformName)
    (env : Env) (config : ServiceConfig) (s : Sys) :
  reachable platform env config s ->
  running_when_state_running (status s).
Proof.
  induction 1 as [s Hinit|fuel s _ IH|s _ IH|s _ IH|s _ IH|fuel s _ IH].
  - rewrite Hinit. intros Hstate. discriminate.
  - exact (preserves_startService platform env config fuel s IH).
  - exact (preserves_stopService platform env config s IH).
  - destruct platform; exact (preserves_checkHealth env config s IH).
  - destruct platform; exact (preserves_getStatus env config s IH).
  - destruct platform; cbn [manager_for sm_waitForHealth];
      exact (preserves_base_waitForHealth env config fuel
               (Base.healthChecker env config)
               (preserves_check env (port config) "/api/tags") s IH).
Qed.

(** C9, as stated, fails.  After a [getStatus()] that saw the service
    healthy, a start that finds the probe failing and then succeeding
    returns normally with [running] true and the state 'starting'; a Unix
    stop whose kill is refused ends with [running] true and the state
    'stopping'; and the merge [{ state: 'starting' }] alone breaks the
    equivalence on a consistent status. *)
Lemma running_true_outside_state_running :
  let s1 := snd (Base.getStatus env_flap test_config fresh) in
  let r2 := UnixServiceManager.startService env_flap test_config 20 s1 in
  let t1 := snd (Base.getStatus (unkillable true) test_config fresh) in
  let t2 := snd (UnixServiceManager.stopService (unkillable true) t1) in
  reachable unix env_flap test_config (snd r2)
  /\ fst r2 = Ok tt
  /\ status (snd r2) = mkStatus true StStarting None None
  /\ consistent (status (snd r2)) = false
  /\ reachable unix (unkillable true) test_config t2
  /\ status t2 = mkStatus true StStopping None None
  /\ consistent (status t2) = false
  /\ consistent (mkStatus true StRunning None None) = true
  /\ consistent (Base.merge (mkStatus true StRunning None None)
                   (Base.only_state StStarting)) = false.
Proof.
  cbv zeta. repeat split; try (vm_compute; reflexivity).
  - apply (reach_startService unix env_flap test_config 20).
    apply (reach_getStatus unix env_flap test_config).
    apply reach_initial. reflexivity.
  - apply (reach_stopService unix (unkillable true) test_config).
    apply (reach_getStatus unix (unkillable true) test_config).
    apply reach_initial. reflexivity.
Qed.

(** C9, amended.  In every reachable state of a manager, on either platform
    and whatever the outside world does, a state of 'running' comes with
    [running] true: this holds of the initial status and is kept by
    [startService], [stopService], [checkHealth], [getStatus] and
    [waitForHealth] with the merges they perform.  The equivalence of the
    two fields holds of the initial status, of every status [getStatus]
    stores and returns, and after the merge
    [{ running: false, state: 'stopped' }]. *)
Theorem state_running_implies_running :
  (forall (platform : PlatformName) (env : Env) (config : ServiceConfig)
          (s : Sys),
      reachable platform env config s ->
      state (status s) = StRunning -> running (status s) = true)
  /\ consistent Base.initial_status = true
  /\ (forall (env : Env) (config : ServiceConfig) (s : Sys),
        consistent (status (snd (Base.getStatus env config s))) = true
        /\ fst (Base.getStatus env config s)
           = Ok (status (snd (Base.getStatus env config s))))
  /\ (forall st : ServiceStatus, consistent (stopped_status st) = true).
Proof.
  split; [|split; [|split]].
  - intros platform env config s H.
    exact (reachable_running_when_state_running platform env config s H).
  - reflexivity.
  - intros env config s. split; [apply getStatus_consistent|].
    rewrite getStatus_probe. reflexivity.
  - intros st. reflexivity.
Qed.

Lemma state_running_implies_running_witness :
  running (status (snd (Base.getStatus (unkillable true) test_config fresh)))
  = true.
Proof.
  apply (proj1 state_running_implies_running unix (unkillable true)
           test_config).
  - apply (reach_getStatus unix (unkillable true) test_config).
    apply reach_initial. reflexivity.
  - reflexivity.
Defined.

(** * Further properties of the code *)

(** ** The health wait: success, timeout, empty budget, termination *)

Lemma lt_num_below (j k : Z) (bound : JS.number) :
  j <= k -> JS.lt_num k bound = true -> JS.lt_num j bound = true.
Proof.
  intros Hjk. destruct bound as [z| | |]; cbn [JS.lt_num]; try trivial.
  intros H. apply Z.ltb_lt in H. apply Z.ltb_lt. lia.
Qed.

(** [n] failed attempts that stay within the budget and do not trip the
    timeout test bring the loop, [n] attempts later, to the state they leave
    behind. *)
Lemma wait_loop_after_failed_attempts (env : Env)
    (checker : Health.HealthChecker) (config : HealthCheckConfig)
    (currentStatus : M ServiceStatus) (start : Z) (bound : JS.number) :
  forall (n fuel : nat) (a : Z) (s : Sys),
    (forall j, (j < n)%nat ->
       JS.lt_num (a + Z.of_nat j) bound = true) ->
    (forall j, (j < n)%nat ->
       fst (Health.check checker
              (after_failed_attempts env checker (interval config) s j))
       = Ok false) ->
    (forall j, (j < n)%nat ->
       check_time env checker (interval config) s j - start
       < timeout config) ->
    Health.wait_loop env (n + fuel) checker config currentStatus start bound
      a s
    = Health.wait_loop env fuel checker config currentStatus start bound
        (a + Z.of_nat n)
        (after_failed_attempts env checker (interval config) s n).
Proof.
  induction n as [|n IH]; intros fuel a s Hbound Hfail Htime.
  - cbn [Nat.add after_failed_attempts Z.of_nat]. now rewrite Z.add_0_r.
  - cbn [Nat.add]. rewrite wait_loop_step.
    pose proof (Hbound 0%nat ltac:(lia)) as Hb0.
    cbn [Z.of_nat] in Hb0. rewrite Z.add_0_r in Hb0. rewrite Hb0.
    pose proof (Hfail 0%nat ltac:(lia)) as Hf0.
    pose proof (Htime 0%nat ltac:(lia)) as Ht0.
    unfold check_time in Ht0. cbn [after_failed_attempts] in Hf0, Ht0.
    cbn [after_failed_attempts]. unfold after_failed_attempt.
    unfold bind at 1.
    destruct (Health.check checker s) as [r s1] eqn:Hc.
    cbn [fst snd] in *. subst r.
    unfold bind at 1, date_now at 1.
    replace (timeout config <=? now s1 - start) with false
      by (symmetry; apply Z.leb_gt; exact Ht0).
    unfold bind at 1, sleep at 1.
    replace (a + Z.of_nat (S n)) with ((a + 1) + Z.of_nat n) by lia.
    apply (IH fuel (a + 1) (slept env (interval config) s1)).
    + intros j Hj. replace (a + 1 + Z.of_nat j) with (a + Z.of_nat (S j))
        by lia. apply Hbound. lia.
    + intros j Hj. specialize (Hfail (S j) ltac:(lia)).
      cbn [after_failed_attempts] in Hfail.
      unfold after_failed_attempt in Hfail. now rewrite Hc in Hfail.
    + intros j Hj. specialize (Htime (S j) ltac:(lia)).
      unfold check_time in Htime. cbn [after_failed_attempts] in Htime.
      unfold after_failed_attempt in Htime. now rewrite Hc in Htime.
Qed.

(** X1. If the probe fails [k] times and then answers healthy, with attempt
    [k] still within the budget and none of the first [k] timeout tests
    tripping, [waitForHealth] returns normally right after that answer: [k]
    pauses, [k]+1 probes, and the snapshot supplier is never called. *)
Theorem waitForHealth_returns_at_first_healthy_probe (env : Env)
    (checker : Health.HealthChecker) (config : HealthCheckConfig)
    (currentStatus : M ServiceStatus) (fuel k : nat) (s : Sys) :
  JS.lt_num (Z.of_nat k) (Health.maxAttemptsOf config) = true ->
  (k < fuel)%nat ->
  (forall j, (j < k)%nat ->
     fst (Health.check checker
            (after_failed_attempts env checker (interval config) s j))
     = Ok false) ->
  fst (Health.check checker
         (after_failed_attempts env checker (interval config) s k))
  = Ok true ->
  (forall j, (j < k)%nat ->
     check_time env checker (interval config) s j - now s < timeout config) ->
  Health.waitForHealth env fuel checker config currentStatus s
  = (Ok tt,
     snd (Health.check checker
            (after_failed_attempts env checker (interval config) s k))).
Proof.
  intros Hbound Hfuel Hfail Hok Htime.
  unfold Health.waitForHealth. unfold bind at 1, date_now at 1.
  unfold bind at 1.
  replace fuel with (k + S (fuel - S k))%nat by lia.
  rewrite wait_loop_after_failed_attempts; try assumption.
  - rewrite wait_loop_step. cbn [Z.add]. rewrite Hbound.
    unfold bind at 1.
    destruct (Health.check checker _) as [r s1]. cbn [fst snd] in *.
    subst r. reflexivity.
  - intros j Hj. cbn [Z.add].
    apply (lt_num_below _ (Z.of_nat k)); [lia|exact Hbound].
Qed.

Lemma waitForHealth_returns_at_first_healthy_probe_witness :
  let r := Health.waitForHealth (env_warming 2) 20
             (Health.ServiceHealthChecker (env_warming 2) 11434 "/api/tags")
             (healthCheck test_config)
             (Base.getStatus (env_warming 2) test_config) fresh in
  fst r = Ok tt /\ fetches (snd r) = 3%nat /\ sleeps (snd r) = 2%nat.
Proof.
  cbv zeta.
  rewrite (waitForHealth_returns_at_first_healthy_probe (env_warming 2)
             (Health.ServiceHealthChecker (env_warming 2) 11434 "/api/tags")
             (healthCheck test_config)
             (Base.getStatus (env_warming 2) test_config) 20 2 fresh).
  - repeat split.
  - reflexivity.
  - lia.
  - intros j Hj. destruct j as [|[|j]]; [reflexivity ..|lia].
  - reflexivity.
  - intros j Hj. destruct j as [|[|j]]; [vm_compute; reflexivity ..|lia].
Defined.

(** X2. If the probe keeps failing and the timeout test of attempt [k],
    still within the budget, is the first to find the timeout elapsed,
    [waitForHealth] takes one snapshot and raises the TimeoutError that
    carries the configured timeout; no pause follows that probe. *)
Theorem waitForHealth_raises_timeout (env : Env)
    (checker : Health.HealthChecker) (config : HealthCheckConfig)
    (currentStatus : M ServiceStatus) (fuel k : nat) (s : Sys)
    (st : ServiceStatus) (s' : Sys) :
  JS.lt_num (Z.of_nat k) (Health.maxAttemptsOf config) = true ->
  (k < fuel)%nat ->
  (forall j, (j <= k)%nat ->
     fst (Health.check checker
            (after_failed_attempts env checker (interval config) s j))
     = Ok false) ->
  (forall j, (j < k)%nat ->
     check_time env checker (interval config) s j - now s < timeout config) ->
  timeout config <= check_time env checker (interval config) s k - now s ->
  currentStatus
    (snd (Health.check checker
            (after_failed_attempts env checker (interval config) s k)))
  = (Ok st, s') ->
  Health.waitForHealth env fuel checker config currentStatus s
  = (Throw (TimeoutError "Health check timed out" "health_check"
              (timeout config)), s').
Proof.
  intros Hbound Hfuel Hfail Htime Hlate Hsnap.
  unfold Health.waitForHealth. unfold bind at 1, date_now at 1.
  unfold bind at 1.
  replace fuel with (k + S (fuel - S k))%nat by lia.
  rewrite wait_loop_after_failed_attempts; try assumption.
  - rewrite wait_loop_step. cbn [Z.add]. rewrite Hbound.
    unfold bind at 1. unfold check_time in Hlate.
    pose proof (Hfail k (le_n k)) as Hk.
    destruct (Health.check checker _) as [r s1]. cbn [fst snd] in *.
    subst r.
    unfold bind at 1, date_now at 1.
    replace (timeout config <=? now s1 - now s) with true
      by (symmetry; apply Z.leb_le; exact Hlate).
    unfold bind at 1. rewrite Hsnap. reflexivity.
  - intros j Hj. cbn [Z.add].
    apply (lt_num_below _ (Z.of_nat k)); [lia|exact Hbound].
  - intros j Hj. apply Hfail. lia.
Qed.

Lemma waitForHealth_raises_timeout_witness :
  fst (Health.waitForHealth env_slow 20
         (Health.ServiceHealthChecker env_slow 11434 "/api/tags")
         (healthCheck test_config) (Base.getStatus env_slow test_config)
         fresh)
  = Throw (TimeoutError "Health check timed out" "health_check" 5000).
Proof.
  rewrite (waitForHealth_raises_timeout env_slow
             (Health.ServiceHealthChecker env_slow 11434 "/api/tags")
             (healthCheck test_config) (Base.getStatus env_slow test_config)
             20 0 fresh Base.initial_status
             (snd (Base.getStatus env_slow test_config
                     (fetched env_slow (manager_url test_config) fresh)))).
  - reflexivity.
  - reflexivity.
  - lia.
  - intros j Hj. replace j with 0%nat by lia. reflexivity.
  - intros j Hj. lia.
  - vm_compute. discriminate.
  - reflexivity.
Defined.

(** X3. With no attempt to spend (a timeout shorter than the interval and no
    maxAttempts, or a negative maxAttempts) [waitForHealth] never polls the
    probe and never pauses: it takes the snapshot at once and raises the
    attempt-exhaustion error with 0 attempts. *)
Theorem waitForHealth_without_budget_never_probes (env : Env)
    (checker : Health.HealthChecker) (config : HealthCheckConfig)
    (currentStatus : M ServiceStatus) (fuel : nat) (s : Sys)
    (st : ServiceStatus) (s' : Sys) :
  (maxAttempts config = None /\ 0 <= timeout config < interval config)
  \/ (exists m, maxAttempts config = Some (JS.Int m) /\ m < 0) ->
  (0 < fuel)%nat ->
  currentStatus s = (Ok st, s') ->
  Health.waitForHealth env fuel checker config currentStatus s
  = (Throw (HealthCheckError "Health check failed after maximum attempts"
              st 0), s').
Proof.
  intros Hbudget Hfuel Hsnap.
  assert (Hno : JS.lt_num 0 (Health.maxAttemptsOf config) = false).
  { unfold Health.maxAttemptsOf.
    destruct Hbudget as [[Hnone Hshort] | [m [Hsome Hneg]]].
    - rewrite Hnone. cbn [JS.or_else]. unfold JS.floor_div.
      replace (interval config =? 0) with false
        by (symmetry; apply Z.eqb_neq; lia).
      rewrite Z.div_small by lia. reflexivity.
    - rewrite Hsome. cbn [JS.or_else JS.truthy].
      replace (m =? 0) with false by (symmetry; apply Z.eqb_neq; lia).
      cbn [negb JS.lt_num]. apply Z.ltb_ge. lia. }
  destruct fuel as [|fuel]; [lia|].
  unfold Health.waitForHealth. unfold bind at 1, date_now at 1.
  unfold bind at 1. rewrite wait_loop_step, Hno.
  unfold ret. unfold bind at 1. rewrite Hsnap. reflexivity.
Qed.

Lemma waitForHealth_without_budget_never_probes_witness :
  Base.waitForHealth env_down short_config 20
    (Base.healthChecker env_down short_config) fresh
  = (Throw (HealthCheckError "Health check failed after maximum attempts"
              Base.initial_status 0),
     mkSys 10 1 0 0 0 [EvFetch "http://127.0.0.1:11434/api/tags"]
       Base.initial_status).
Proof.
  unfold Base.waitForHealth.
  apply (waitForHealth_without_budget_never_probes env_down
           (Base.healthChecker env_down short_config)
           (mkHealthCheckConfig 500 1000 None)
           (Base.getStatus env_down short_config) 20 fresh).
  - left. cbn. split; [reflexivity|lia].
  - lia.
  - reflexivity.
Defined.

(** The loop of the manager's health wait, under an integer budget [m]:
    it ends within [m - a] further turns, each costing one probe and at
    most one pause, with one more probe for the snapshot of a timeout. *)
Lemma manager_wait_loop_bounded (env : Env) (config : ServiceConfig)
    (port : Z) (endpoint : string) (budget : HealthCheckConfig) (start m : Z) :
  forall (n fuel : nat) (a : Z) (s : Sys) (out : Outcome Health.LoopExit)
         (s' : Sys),
    m - a <= Z.of_nat n ->
    (n < fuel)%nat ->
    Health.wait_loop env fuel
      (Health.ServiceHealthChecker env port endpoint) budget
      (Base.getStatus env config) start (JS.Int m) a s = (out, s') ->
    out <> OutOfFuel
    /\ (fetches s'
        <= fetches s + n + match out with Throw _ => 1 | _ => 0 end)%nat
    /\ (sleeps s' <= sleeps s + n)%nat
    /\ execs s' = execs s
    /\ spawns s' = spawns s.
Proof.
  induction n as [|n IH]; intros fuel a s out s' Hm Hfuel H;
    (destruct fuel as [|fuel]; [lia|]);
    rewrite wait_loop_step in H; cbn [JS.lt_num] in H.
  - replace (a <? m) with false in H by (symmetry; apply Z.ltb_ge; lia).
    injection H as <- <-. repeat split; try lia. discriminate.
  - destruct (a <? m).
    2:{ injection H as <- <-. repeat split; try lia. discriminate. }
    unfold bind at 1 in H. rewrite check_probe in H.
    destruct (healthy_at env port endpoint (fetches s)).
    { injection H as <- <-. cbn. repeat split; try lia. discriminate. }
    unfold bind at 1, date_now at 1 in H.
    destruct (timeout budget <=? _).
    { unfold bind at 1 in H. rewrite getStatus_probe in H.
      injection H as <- <-. cbn. repeat split; try lia. discriminate. }
    unfold bind at 1, sleep at 1 in H.
    apply IH in H; [|lia|lia].
    cbn [fetches sleeps execs spawns fetched] in H.
    destruct H as [H1 [H2 [H3 [H4 H5]]]].
    repeat split; try assumption; lia.
Qed.

(** X4. Whenever the attempt budget of a manager's health wait,
    Math.floor(timeout / interval), is a finite number [b], the wait ends:
    given fuel beyond [b] it never runs out of it, it polls the probe at
    most [b] times (one more request serves the snapshot of a failure),
    pauses at most [b] times, and asks nothing of the process-control
    layer.  A budget that is not finite (Infinity, as the quotient is for an
    interval of 0 or for a timeout of Infinity) is outside the statement:
    the wait then need not end. *)
Theorem manager_waitForHealth_terminates_within_budget (env : Env)
    (config : ServiceConfig) (fuel : nat) (s : Sys) (b : Z) :
  JS.floor_div (timeout (healthCheck config)) (interval (healthCheck config))
  = JS.Int b ->
  (Z.to_nat b < fuel)%nat ->
  let r := Base.waitForHealth env config fuel
             (Base.healthChecker env config) s in
  fst r <> OutOfFuel
  /\ (fetches (snd r) <= fetches s + Z.to_nat b + 1)%nat
  /\ (sleeps (snd r) <= sleeps s + Z.to_nat b)%nat
  /\ execs (snd r) = execs s
  /\ spawns (snd r) = spawns s.
Proof.
  intros Hbudget Hfuel. cbv zeta.
  destruct (Base.waitForHealth env config fuel
              (Base.healthChecker env config) s) as [out s'] eqn:H.
  cbn [fst snd].
  unfold Base.waitForHealth, Health.waitForHealth in H.
  unfold bind at 1, date_now at 1 in H. unfold bind at 1 in H.
  unfold Health.maxAttemptsOf in H.
  cbn [maxAttempts JS.or_else timeout interval] in H.
  rewrite Hbudget in H.
  unfold Base.healthChecker, Health.createHealthChecker in H.
  destruct (Health.wait_loop env fuel _ _ _ _ _ _ s)
    as [[exit| e |] s1] eqn:Hloop;
    apply (manager_wait_loop_bounded env config (port config) "/api/tags"
             _ _ _ (Z.to_nat b) fuel 0 s) in Hloop;
    try lia;
    destruct Hloop as [H1 [H2 [H3 [H4 H5]]]].
  - destruct exit as [|attempts].
    + injection H as <- <-. repeat split; try lia. discriminate.
    + unfold bind at 1 in H. rewrite getStatus_probe in H.
      injection H as <- <-. cbn. repeat split; try lia. discriminate.
  - injection H as <- <-. repeat split; try lia. discriminate.
  - contradiction.
Qed.

Lemma manager_waitForHealth_terminates_within_budget_witness :
  fst (Base.waitForHealth env_down test_config 11
         (Base.healthChecker env_down test_config) fresh)
  <> OutOfFuel
  /\ (fetches (snd (Base.waitForHealth env_down test_config 11
                      (Base.healthChecker env_down test_config) fresh))
      <= 11)%nat.
Proof.
  pose proof (manager_waitForHealth_terminates_within_budget env_down
                test_config 11 fresh 10) as H.
  cbv zeta in H.
  destruct H as [H1 [H2 _]].
  - reflexivity.
  - cbn. lia.
  - split; [exact H1|].
    cbn [fetches fresh Nat.add] in H2. exact H2.
Defined.

(** ** Composition of state relations *)

Section Steps.
Context (R : Sys -> Sys -> Prop) (K : kept R).

Lemma steps_ret {A : Type} (a : A) : steps R (ret a).
Proof. intros s. apply (kept_refl R K). Qed.

Lemma steps_throw {A : Type} (e : JsError) : steps R (@throw A e).
Proof. intros s. apply (kept_refl R K). Qed.

Lemma steps_bind {A B : Type} (m : M A) (k : A -> M B) :
  steps R m -> (forall a, steps R (k a)) -> steps R (bind m k).
Proof.
  intros Hm Hk s. unfold bind. specialize (Hm s).
  destruct (m s) as [[a| e |] s1]; cbn [snd] in *; [|assumption ..].
  exact (kept_trans R K _ _ _ Hm (Hk a s1)).
Qed.

Lemma steps_try_catch {A : Type} (m : M A) (h : JsError -> M A) :
  steps R m -> (forall e, steps R (h e)) -> steps R (try_catch m h).
Proof.
  intros Hm Hh s. unfold try_catch. specialize (Hm s).
  destruct (m s) as [[a| e |] s1]; cbn [snd] in *; [assumption| |assumption].
  exact (kept_trans R K _ _ _ Hm (Hh e s1)).
Qed.

End Steps.

Ltac steps_step :=
  match goal with
  | |- steps _ (bind _ _) =>
      eapply steps_bind; [solve [auto with steps]| |intro]
  | |- steps _ (try_catch _ _) =>
      eapply steps_try_catch; [solve [auto with steps]| |intro]
  | |- steps _ (ret _) => apply steps_ret; solve [auto with steps]
  | |- steps _ (throw _) => apply steps_throw; solve [auto with steps]
  | |- steps _ (match ?x with _ => _ end) => destruct x
  | |- steps _ _ => solve [auto with steps]
  end.

Ltac steps_auto := repeat steps_step.

Create HintDb steps.

Lemma process_ops_snoc (tr : list Event) (ev : Event) :
  process_ops (tr ++ [ev])
  = (process_ops tr ++ if is_process_op ev then [ev] else [])%list.
Proof.
  unfold process_ops. rewrite filter_app. cbn [filter].
  destruct (is_process_op ev); reflexivity.
Qed.

Lemma spawned_snoc (tr : list Event) (ev : Event) :
  spawned (tr ++ [ev])
  = (spawned tr ++ match ev with EvSpawn cmd => [cmd] | _ => [] end)%list.
Proof.
  unfold spawned. rewrite flat_map_app. cbn [flat_map].
  now rewrite app_nil_r.
Qed.

Lemma kept_no_process_op : kept no_process_op.
Proof.
  split.
  - intros s. repeat split.
  - intros s1 s2 s3 [H1 [H2 H3]] [H4 [H5 H6]]. repeat split; congruence.
Qed.

Lemma kept_no_spawn : kept no_spawn.
Proof.
  split.
  - intros s. split; reflexivity.
  - intros s1 s2 s3 [H1 H2] [H3 H4]. split; congruence.
Qed.

Lemma kept_same_status_and_fetches : kept same_status_and_fetches.
Proof.
  split.
  - intros s. split; reflexivity.
  - intros s1 s2 s3 [H1 H2] [H3 H4]. split; congruence.
Qed.

#[local] Hint Resolve kept_no_process_op kept_no_spawn
  kept_same_status_and_fetches : steps.

(** What each call to the outside world, and each access to the stored
    status, leaves alone. *)
Lemma fetch_no_process_op (env : Env) (url : string) :
  steps no_process_op (fetch env url).
Proof.
  intros s. unfold fetch, no_process_op.
  destruct (fetch_reply env (fetches s) url);
    cbn [snd execs spawns trace]; rewrite process_ops_snoc;
    cbn [is_process_op]; rewrite app_nil_r; repeat split.
Qed.

Lemma sleep_no_process_op (env : Env) (ms : Z) :
  steps no_process_op (sleep env ms).
Proof.
  intros s. unfold sleep, no_process_op.
  cbn [snd execs spawns trace]. rewrite process_ops_snoc.
  cbn [is_process_op]. rewrite app_nil_r. repeat split.
Qed.

Lemma date_now_no_process_op : steps no_process_op date_now.
Proof. intros s. repeat split. Qed.

Lemma get_status_no_process_op : steps no_process_op get_status.
Proof. intros s. repeat split. Qed.

Lemma put_status_no_process_op (st : ServiceStatus) :
  steps no_process_op (put_status st).
Proof. intros s. repeat split. Qed.

Lemma fetch_no_spawn (env : Env) (url : string) :
  steps no_spawn (fetch env url).
Proof.
  intros s. unfold fetch, no_spawn.
  destruct (fetch_reply env (fetches s) url);
    cbn [snd spawns trace]; rewrite spawned_snoc, app_nil_r; split;
    reflexivity.
Qed.

Lemma execAsync_no_spawn (env : Env) (cmd : string) :
  steps no_spawn (execAsync env cmd).
Proof.
  intros s. unfold execAsync, no_spawn.
  destruct (exec_reply env (execs s) cmd);
    cbn [snd spawns trace]; rewrite spawned_snoc, app_nil_r; split;
    reflexivity.
Qed.

Lemma sleep_no_spawn (env : Env) (ms : Z) : steps no_spawn (sleep env ms).
Proof.
  intros s. unfold sleep, no_spawn. cbn [snd spawns trace].
  rewrite spawned_snoc, app_nil_r. split; reflexivity.
Qed.

Lemma date_now_no_spawn : steps no_spawn date_now.
Proof. intros s. split; reflexivity. Qed.

Lemma get_status_no_spawn : steps no_spawn get_status.
Proof. intros s. split; reflexivity. Qed.

Lemma put_status_no_spawn (st : ServiceStatus) :
  steps no_spawn (put_status st).
Proof. intros s. split; reflexivity. Qed.

Lemma execAsync_same_status (env : Env) (cmd : string) :
  steps same_status_and_fetches (execAsync env cmd).
Proof.
  intros s. unfold execAsync. destruct (exec_reply env (execs s) cmd);
    split; reflexivity.
Qed.

Lemma spawn_detached_same_status (env : Env) (cmd : string) :
  steps same_status_and_fetches (spawn_detached env cmd).
Proof.
  intros s. unfold spawn_detached.
  destruct (spawn_reply env (spawns s) cmd); split; reflexivity.
Qed.

Lemma sleep_same_status (env : Env) (ms : Z) :
  steps same_status_and_fetches (sleep env ms).
Proof. intros s. split; reflexivity. Qed.

#[local] Hint Resolve fetch_no_process_op sleep_no_process_op
  date_now_no_process_op get_status_no_process_op put_status_no_process_op
  fetch_no_spawn execAsync_no_spawn sleep_no_spawn date_now_no_spawn
  get_status_no_spawn put_status_no_spawn execAsync_same_status
  spawn_detached_same_status sleep_same_status : steps.

Lemma updateStatus_no_process_op (update : StatusUpdate) :
  steps no_process_op (Base.updateStatus update).
Proof. unfold Base.updateStatus. steps_auto. Qed.

Lemma updateStatus_no_spawn (update : StatusUpdate) :
  steps no_spawn (Base.updateStatus update).
Proof. unfold Base.updateStatus. steps_auto. Qed.

Lemma check_no_process_op (env : Env) (port : Z) (endpoint : string) :
  steps no_process_op
    (Health.check (Health.ServiceHealthChecker env port endpoint)).
Proof. cbn [Health.check Health.ServiceHealthChecker]. steps_auto. Qed.

Lemma check_no_spawn (env : Env) (port : Z) (endpoint : string) :
  steps no_spawn
    (Health.check (Health.ServiceHealthChecker env port endpoint)).
Proof. cbn [Health.check Health.ServiceHealthChecker]. steps_auto. Qed.

#[local] Hint Resolve updateStatus_no_process_op updateStatus_no_spawn
  check_no_process_op check_no_spawn : steps.

Lemma checkHealth_no_process_op (env : Env) (config : ServiceConfig) :
  steps no_process_op (Base.checkHealth env config).
Proof. apply check_no_process_op. Qed.

Lemma checkHealth_no_spawn (env : Env) (config : ServiceConfig) :
  steps no_spawn (Base.checkHealth env config).
Proof. apply check_no_spawn. Qed.

#[local] Hint Resolve checkHealth_no_process_op checkHealth_no_spawn : steps.

Lemma getStatus_no_process_op (env : Env) (config : ServiceConfig) :
  steps no_process_op (Base.getStatus env config).
Proof. unfold Base.getStatus. steps_auto. Qed.

Lemma getStatus_no_spawn (env : Env) (config : ServiceConfig) :
  steps no_spawn (Base.getStatus env config).
Proof. unfold Base.getStatus. steps_auto. Qed.

#[local] Hint Resolve getStatus_no_process_op getStatus_no_spawn : steps.

(** The health wait keeps any composable relation that its probe, its
    snapshot supplier, the clock and the timer keep. *)
Lemma steps_waitForHealth (R : Sys -> Sys -> Prop) (env : Env)
    (checker : Health.HealthChecker) (config : HealthCheckConfig)
    (currentStatus : M ServiceStatus) (fuel : nat) :
  kept R ->
  steps R (Health.check checker) ->
  steps R currentStatus ->
  steps R date_now ->
  (forall ms, steps R (sleep env ms)) ->
  steps R (Health.waitForHealth env fuel checker config currentStatus).
Proof.
  intros K Hcheck Hsnap Hnow Hsleep.
  assert (Hloop : forall start bound fuel' attempts,
             steps R (Health.wait_loop env fuel' checker config
                        currentStatus start bound attempts)).
  { intros start bound. induction fuel' as [|fuel' IH]; intros attempts.
    - intros s. apply (kept_refl R K).
    - rewrite wait_loop_step.
      repeat match goal with
             | |- steps _ (bind _ _) => apply (steps_bind R K); [|intro]
             | |- steps _ (ret _) => apply (steps_ret R K)
             | |- steps _ (throw _) => apply (steps_throw R K)
             | |- steps _ (match ?x with _ => _ end) => destruct x
             | |- steps _ _ => solve [auto]
             end. }
  unfold Health.waitForHealth.
  repeat match goal with
         | |- steps _ (bind _ _) => apply (steps_bind R K); [|intro]
         | |- steps _ (ret _) => apply (steps_ret R K)
         | |- steps _ (throw _) => apply (steps_throw R K)
         | |- steps _ (match ?x with _ => _ end) => destruct x
         | |- steps _ _ => solve [auto]
         end.
Qed.

Lemma manager_waitForHealth_steps (R : Sys -> Sys -> Prop) (env : Env)
    (config : ServiceConfig) (fuel : nat) :
  kept R ->
  (forall url, steps R (fetch env url)) ->
  steps R get_status ->
  (forall st, steps R (put_status st)) ->
  steps R date_now ->
  (forall ms, steps R (sleep env ms)) ->
  steps R (Base.waitForHealth env config fuel
             (Health.createHealthChecker env (port config))).
Proof.
  intros K Hfetch Hget Hput Hnow Hsleep.
  assert (Hcheck : steps R (Health.check
                              (Health.createHealthChecker env (port config)))).
  { cbn [Health.check Health.createHealthChecker Health.ServiceHealthChecker].
    apply (steps_try_catch R K).
    - apply (steps_bind R K); [apply Hfetch|]. intros a. apply (steps_ret R K).
    - intros e. apply (steps_ret R K). }
  unfold Base.waitForHealth.
  apply steps_waitForHealth; try assumption.
  unfold Base.getStatus, Base.checkHealth, Base.healthChecker.
  repeat match goal with
         | |- steps _ (bind _ _) => apply (steps_bind R K); [|intro]
         | |- steps _ _ => solve [auto]
         end.
Qed.

(** X5. The three status operations of a manager never touch the
    process-control layer: [checkHealth], [getStatus] and [waitForHealth]
    issue no lookup, no kill and no spawn, whatever their outcome. *)
Theorem health_operations_leave_processes_alone (platform : PlatformName)
    (env : Env) (config : ServiceConfig) (fuel : nat) (s : Sys) :
  let sm := manager_for platform env config in
  no_process_op s (snd (sm_checkHealth sm s))
  /\ no_process_op s (snd (sm_getStatus sm s))
  /\ no_process_op s (snd (sm_waitForHealth sm fuel s)).
Proof.
  cbv zeta.
  destruct platform; cbn [manager_for sm_checkHealth sm_getStatus
                           sm_waitForHealth];
    (split; [apply checkHealth_no_process_op|]);
    (split; [apply getStatus_no_process_op|]);
    apply (manager_waitForHealth_steps no_process_op env config fuel);
    auto with steps.
Qed.

(** ** Outcomes of [startService] *)

Lemma bind_ok_inv {A B : Type} (m : M A) (k : A -> M B) (s s' : Sys) (b : B) :
  bind m k s = (Ok b, s') ->
  exists a s1, m s = (Ok a, s1) /\ k a s1 = (Ok b, s').
Proof.
  unfold bind. destruct (m s) as [[a| e |] s1]; intros H;
    [eauto|discriminate ..].
Qed.

Lemma bind_throw_inv {A B : Type} (m : M A) (k : A -> M B) (s s' : Sys)
    (e : JsError) :
  bind m k s = (Throw e, s') ->
  m s = (Throw e, s')
  \/ exists a s1, m s = (Ok a, s1) /\ k a s1 = (Throw e, s').
Proof.
  unfold bind. destruct (m s) as [[a| e0 |] s1]; intros H;
    [right; eauto|left; injection H as <- <-; reflexivity|discriminate].
Qed.

(** The outermost [catch] always raises: the error itself when it is a
    ProcessError or a ServiceError, a PlatformError around it otherwise. *)
Lemma rethrow_eq (platform : PlatformName) (operation : string)
    (error : JsError) (s : Sys) :
  Strategy.rethrow platform operation error s
  = (Throw (if is_ProcessError_or_ServiceError error then error
            else PlatformError
                   ("Failed to " ++ operation ++ " service on "
                    ++ Strategy.platform_label platform ++ " platform")
                   platform operation (Some (wrappedError error))), s).
Proof.
  unfold Strategy.rethrow. cbv zeta.
  destruct (is_ProcessError_or_ServiceError error); reflexivity.
Qed.

Lemma stop_existing_throws (name : string) (pm : ProcessManager)
    (s s' : Sys) (e : JsError) :
  Strategy.stop_existing name pm s = (Throw e, s') ->
  exists c,
    e = ProcessError "Failed to stop existing process" name OpStop (Some c).
Proof.
  unfold Strategy.stop_existing, try_catch.
  destruct (Strategy.stop_existing_body name pm s) as [[a| c |] s1];
    intros H; [discriminate| |discriminate].
  unfold throw in H. injection H as <- _. eauto.
Qed.

Lemma start_command_throws (config : ServiceConfig) (name : string)
    (pm : ProcessManager) (s s' : Sys) (e : JsError) :
  Strategy.start_command config name pm s = (Throw e, s') ->
  exists c, e = ProcessError "Failed to start process" name OpStart (Some c).
Proof.
  unfold Strategy.start_command, try_catch.
  destruct (startProcess pm (command config) s) as [[a| c |] s1];
    intros H; [discriminate| |discriminate].
  unfold throw in H. injection H as <- _. eauto.
Qed.

(** X6. On either platform, whatever the outside world does, an error
    raised by [startService] is one of four: the ProcessError of the failed
    stop of a stray process, the ProcessError of the failed spawn, or a
    PlatformError of operation 'start' whose cause is the TimeoutError or the
    HealthCheckError of the health wait.  Nothing else escapes, and a
    ProcessError is never wrapped. *)
Theorem startService_raises_only (platform : PlatformName) (env : Env)
    (config : ServiceConfig) (fuel : nat) (s s' : Sys) (e : JsError) :
  sm_startService (manager_for platform env config) fuel s = (Throw e, s') ->
  (exists c,
      e = ProcessError "Failed to stop existing process"
            (process_name platform) OpStop (Some c))
  \/ (exists c,
         e = ProcessError "Failed to start process" (process_name platform)
               OpStart (Some c))
  \/ e = PlatformError
           ("Failed to start service on "
            ++ Strategy.platform_label platform ++ " platform")
           platform "start"
           (Some (TimeoutError "Health check timed out" "health_check"
                    (timeout (healthCheck config))))
  \/ (exists st n,
         e = PlatformError
               ("Failed to start service on "
                ++ Strategy.platform_label platform ++ " platform")
               platform "start"
               (Some (HealthCheckError
                        "Health check failed after maximum attempts" st n))).
Proof.
  rewrite manager_startService_eq. intros H.
  destruct (manager_healthy_at env config (fetches s)) eqn:Hhealthy.
  - rewrite startService_when_healthy in H by exact Hhealthy. discriminate.
  - rewrite startService_when_unhealthy in H by exact Hhealthy.
    unfold try_catch at 1 in H.
    destruct ((Strategy.stop_existing _ _ ;;; _) (starting env config s))
      as [[a| e0 |] s2] eqn:Hin; [discriminate| |discriminate].
    rewrite rethrow_eq in H. injection H as <- _.
    apply bind_throw_inv in Hin.
    destruct Hin as [Hstop | [a [s3 [_ Hin]]]].
    { apply stop_existing_throws in Hstop. destruct Hstop as [c ->].
      left. exists c. reflexivity. }
    apply bind_throw_inv in Hin.
    destruct Hin as [Hspawn | [a' [s4 [_ Hwait]]]].
    { apply start_command_throws in Hspawn. destruct Hspawn as [c ->].
      right. left. exists c. reflexivity. }
    unfold Strategy.await_health, Base.waitForHealth in Hwait.
    apply waitForHealth_throws in Hwait;
      [|apply check_always_returns|apply getStatus_always_returns].
    destruct Hwait as [-> | [st [n ->]]].
    + right. right. left. destruct platform; reflexivity.
    + right. right. right. exists st, n. destruct platform; reflexivity.
Qed.

Lemma startService_raises_only_witness :
  (exists c,
      PlatformError "Failed to start service on Unix platform" unix "start"
        (Some (HealthCheckError "Health check failed after maximum attempts"
                 (mkStatus false StStopped None None) 10))
      = ProcessError "Failed to stop existing process" (process_name unix)
          OpStop (Some c))
  \/ (exists c,
         PlatformError "Failed to start service on Unix platform" unix "start"
           (Some (HealthCheckError
                    "Health check failed after maximum attempts"
                    (mkStatus false StStopped None None) 10))
         = ProcessError "Failed to start process" (process_name unix)
             OpStart (Some c))
  \/ PlatformError "Failed to start service on Unix platform" unix "start"
       (Some (HealthCheckError "Health check failed after maximum attempts"
                (mkStatus false StStopped None None) 10))
     = PlatformError
         ("Failed to start service on "
          ++ Strategy.platform_label unix ++ " platform")
         unix "start"
         (Some (TimeoutError "Health check timed out" "health_check"
                  (timeout (healthCheck test_config))))
  \/ (exists st n,
         PlatformError "Failed to start service on Unix platform" unix "start"
           (Some (HealthCheckError
                    "Health check failed after maximum attempts"
                    (mkStatus false StStopped None None) 10))
         = PlatformError
             ("Failed to start service on "
              ++ Strategy.platform_label unix ++ " platform")
             unix "start"
             (Some (HealthCheckError
                      "Health check failed after maximum attempts" st n))).
Proof.
  apply (startService_raises_only unix env_down test_config 20 fresh
           (snd (UnixServiceManager.startService env_down test_config 20
                   fresh))).
  vm_compute. reflexivity.
Defined.

(** The steps of [startService] before the health wait go through the
    process manager only. *)
Lemma stop_existing_steps (R : Sys -> Sys -> Prop) (platform : PlatformName)
    (env : Env) (name : string) :
  kept R ->
  (forall cmd, steps R (execAsync env cmd)) ->
  (forall ms, steps R (sleep env ms)) ->
  steps R (Strategy.stop_existing name (process_manager platform env)).
Proof.
  intros K Hexec Hsleep.
  unfold Strategy.stop_existing, Strategy.stop_existing_body.
  destruct platform;
    cbn [process_manager UnixProcessManager.manager
         WindowsProcessManager.manager isProcessRunning stopProcess];
    unfold UnixProcessManager.isProcessRunning,
      UnixProcessManager.stopProcess, UnixProcessManager.findProcess,
      WindowsProcessManager.isProcessRunning,
      WindowsProcessManager.stopProcess,
      WindowsProcessManager.forceStopProcess,
      WindowsProcessManager.findProcess;
    steps_auto.
Qed.

Lemma start_command_same_status (platform : PlatformName) (env : Env)
    (config : ServiceConfig) (name : string) :
  steps same_status_and_fetches
    (Strategy.start_command config name (process_manager platform env)).
Proof.
  unfold Strategy.start_command.
  destruct platform;
    cbn [process_manager UnixProcessManager.manager
         WindowsProcessManager.manager startProcess];
    unfold UnixProcessManager.startProcess,
      WindowsProcessManager.startProcess;
    steps_auto.
Qed.

(** The loop returns only right after a probe that answered healthy, and
    then without having touched the stored status. *)
Lemma wait_loop_returned (env : Env) (port : Z) (endpoint : string)
    (budget : HealthCheckConfig) (currentStatus : M ServiceStatus)
    (start : Z) (bound : JS.number) :
  forall (fuel : nat) (a : Z) (s s' : Sys),
    Health.wait_loop env fuel (Health.ServiceHealthChecker env port endpoint)
      budget currentStatus start bound a s = (Ok Health.Returned, s') ->
    status s' = status s
    /\ (fetches s < fetches s')%nat
    /\ healthy_at env port endpoint (pred (fetches s')) = true
    /\ exists before,
         trace s' = (before ++ [EvFetch (Health.probe_url port endpoint)])%list.
Proof.
  induction fuel as [|fuel IH]; intros a s s' H; [discriminate|].
  rewrite wait_loop_step in H.
  destruct (JS.lt_num a bound); [|discriminate].
  unfold bind at 1 in H. rewrite check_probe in H.
  destruct (healthy_at env port endpoint (fetches s)) eqn:Hhealthy.
  - injection H as <-. cbn [fetched status fetches trace pred].
    repeat split; [lia|exact Hhealthy|eauto].
  - unfold bind at 1, date_now at 1 in H.
    destruct (timeout budget <=? _).
    + unfold bind at 1 in H.
      destruct (currentStatus _) as [[st| e |] s1]; discriminate.
    + unfold bind at 1, sleep at 1 in H.
      apply IH in H. cbn [status fetches fetched] in H.
      destruct H as [H1 [H2 [H3 H4]]].
      repeat split; [exact H1|lia|exact H3|exact H4].
Qed.

(** X7. On either platform, [startService] returns normally only right
    after a health probe that answered healthy: that probe is the last event
    of the call.  It stores nothing but, when it had to start the service,
    the state 'starting': [running] is left as it was, so the state
    'running' appears only with the next [getStatus]. *)
Theorem startService_returns_only_after_healthy_probe
    (platform : PlatformName) (env : Env) (config : ServiceConfig)
    (fuel : nat) (s s' : Sys) :
  sm_startService (manager_for platform env config) fuel s = (Ok tt, s') ->
  (fetches s < fetches s')%nat
  /\ manager_healthy_at env config (pred (fetches s')) = true
  /\ (exists before,
         trace s' = (before ++ [EvFetch (manager_url config)])%list)
  /\ (status s' = status s
      \/ status s' = Base.merge (status s) (Base.only_state StStarting))
  /\ running (status s') = running (status s).
Proof.
  rewrite manager_startService_eq. intros H.
  destruct (manager_healthy_at env config (fetches s)) eqn:Hhealthy.
  - rewrite startService_when_healthy in H by exact Hhealthy.
    injection H as <-. cbn [fetched fetches trace status pred].
    repeat split; [lia|exact Hhealthy|eauto|now left].
  - rewrite startService_when_unhealthy in H by exact Hhealthy.
    unfold try_catch at 1 in H.
    destruct ((Strategy.stop_existing _ _ ;;; _) (starting env config s))
      as [[a| e0 |] s2] eqn:Hin;
      [|rewrite rethrow_eq in H; discriminate|discriminate].
    injection H as -> ->.
    apply bind_ok_inv in Hin. destruct Hin as [a1 [s3 [Hstop Hin]]].
    apply bind_ok_inv in Hin. destruct Hin as [a2 [s4 [Hspawn Hwait]]].
    pose proof (stop_existing_steps same_status_and_fetches platform env
                  (process_name platform) kept_same_status_and_fetches
                  (execAsync_same_status env) (sleep_same_status env)
                  (starting env config s)) as [Hst3 Hf3].
    rewrite Hstop in Hst3, Hf3. cbn [snd] in Hst3, Hf3.
    pose proof (start_command_same_status platform env config
                  (process_name platform) s3) as [Hst4 Hf4].
    rewrite Hspawn in Hst4, Hf4. cbn [snd] in Hst4, Hf4.
    unfold Strategy.await_health, Base.waitForHealth, Health.waitForHealth
      in Hwait.
    apply bind_ok_inv in Hwait. destruct Hwait as [t0 [s5 [Hnow Hwait]]].
    unfold date_now in Hnow. injection Hnow as <- <-.
    apply bind_ok_inv in Hwait. destruct Hwait as [exit [s6 [Hloop Hexit]]].
    destruct exit as [|attempts].
    2:{ apply bind_ok_inv in Hexit. destruct Hexit as [st [s7 [_ Hthrow]]].
        discriminate. }
    injection Hexit as <-.
    apply wait_loop_returned in Hloop.
    destruct Hloop as [L1 [L2 [L3 L4]]].
    assert (Hf : fetches s4 = S (fetches s))
      by (rewrite Hf4, Hf3; reflexivity).
    assert (Hs : status s4
                 = Base.merge (status s) (Base.only_state StStarting))
      by (rewrite Hst4, Hst3; reflexivity).
    repeat split.
    + lia.
    + exact L3.
    + exact L4.
    + right. now rewrite L1.
    + rewrite L1, Hs. reflexivity.
Qed.

Lemma startService_returns_only_after_healthy_probe_witness :
  manager_healthy_at (env_warming 2) test_config
    (pred (fetches (snd (UnixServiceManager.startService (env_warming 2)
                           test_config 20 fresh))))
  = true.
Proof.
  apply (startService_returns_only_after_healthy_probe unix (env_warming 2)
           test_config 20 fresh
           (snd (UnixServiceManager.startService (env_warming 2) test_config
                   20 fresh))).
  vm_compute. reflexivity.
Defined.

Lemma start_command_spawns (platform : PlatformName) (env : Env)
    (config : ServiceConfig) (name : string) (s : Sys) :
  spawned (trace (snd (Strategy.start_command config name
                         (process_manager platform env) s)))
  = (spawned (trace s) ++ [command config])%list.
Proof.
  unfold Strategy.start_command, try_catch.
  destruct platform;
    cbn [process_manager UnixProcessManager.manager
         WindowsProcessManager.manager startProcess];
    unfold UnixProcessManager.startProcess,
      WindowsProcessManager.startProcess, spawn_detached;
    destruct (spawn_reply env (spawns s) (command config));
    cbn [snd trace throw]; apply spawned_snoc.
Qed.

Lemma rethrow_steps (R : Sys -> Sys -> Prop) (platform : PlatformName)
    (operation : string) (error : JsError) :
  kept R -> steps R (Strategy.rethrow platform operation error).
Proof.
  intros K s. rewrite rethrow_eq. apply (kept_refl R K).
Qed.

(** [stopService] goes through awaited shell commands, probes, pauses and
    the stored status only. *)
Lemma stopService_steps (R : Sys -> Sys -> Prop) (platform : PlatformName)
    (env : Env) (config : ServiceConfig) :
  kept R ->
  (forall cmd, steps R (execAsync env cmd)) ->
  (forall ms, steps R (sleep env ms)) ->
  (forall url, steps R (fetch env url)) ->
  steps R get_status ->
  (forall st, steps R (put_status st)) ->
  steps R (sm_stopService (manager_for platform env config)).
Proof.
  intros K Hexec Hsleep Hfetch Hget Hput.
  assert (Hupdate : forall u, steps R (Base.updateStatus u))
    by (intros u; unfold Base.updateStatus; steps_auto).
  assert (Hre : forall p op e, steps R (Strategy.rethrow p op e))
    by (intros; apply rethrow_steps; exact K).
  assert (Hhealth : steps R (Base.checkHealth env config)).
  { unfold Base.checkHealth, Base.healthChecker, Health.createHealthChecker.
    cbn [Health.check Health.ServiceHealthChecker]. steps_auto. }
  destruct platform; cbn [manager_for sm_stopService].
  - unfold UnixServiceManager.stopService,
      UnixServiceManager.processManager.
    cbn [UnixProcessManager.manager stopProcess].
    unfold UnixProcessManager.stopProcess, UnixProcessManager.findProcess.
    steps_auto.
  - assert (Hdown : forall n,
               steps R (WindowsServiceManager.wait_until_down env config n)).
    { induction n as [|n IH];
        cbn [WindowsServiceManager.wait_until_down]; steps_auto. }
    unfold WindowsServiceManager.stopService,
      WindowsServiceManager.processManager.
    cbn [WindowsProcessManager.manager stopProcess forceStopProcess].
    unfold WindowsProcessManager.stopProcess,
      WindowsProcessManager.forceStopProcess.
    steps_auto.
Qed.

(** X8. [startService] spawns the configured command at most once and
    spawns nothing else, whatever happens; [stopService], [checkHealth],
    [getStatus] and [waitForHealth] never spawn. *)
Theorem only_startService_spawns_and_once (platform : PlatformName)
    (env : Env) (config : ServiceConfig) (fuel : nat) (s : Sys) :
  let sm := manager_for platform env config in
  (spawned (trace (snd (sm_startService sm fuel s))) = spawned (trace s)
   \/ spawned (trace (snd (sm_startService sm fuel s)))
      = (spawned (trace s) ++ [command config])%list)
  /\ no_spawn s (snd (sm_stopService sm s))
  /\ no_spawn s (snd (sm_checkHealth sm s))
  /\ no_spawn s (snd (sm_getStatus sm s))
  /\ no_spawn s (snd (sm_waitForHealth sm fuel s)).
Proof.
  cbv zeta. split; [|split; [|split; [|split]]].
  - rewrite manager_startService_eq.
    destruct (manager_healthy_at env config (fetches s)) eqn:Hhealthy.
    { rewrite startService_when_healthy by exact Hhealthy.
      left. cbn [snd fetched trace]. rewrite spawned_snoc. apply app_nil_r. }
    rewrite startService_when_unhealthy by exact Hhealthy.
    assert (H1 : spawned (trace (starting env config s)) = spawned (trace s)).
    { unfold starting. cbn [set_status fetched trace].
      rewrite spawned_snoc. apply app_nil_r. }
    destruct (try_catch _ _ (starting env config s)) as [out s'] eqn:Hrun.
    cbn [snd]. rewrite <- H1.
    unfold try_catch at 1 in Hrun. unfold bind at 1 in Hrun.
    pose proof (stop_existing_steps no_spawn platform env
                  (process_name platform) kept_no_spawn
                  (execAsync_no_spawn env) (sleep_no_spawn env)
                  (starting env config s)) as [_ H2].
    destruct (Strategy.stop_existing _ _ (starting env config s))
      as [[a| e |] s2]; cbn [snd] in H2.
    2:{ rewrite rethrow_eq in Hrun. injection Hrun as <- <-. now left. }
    2:{ injection Hrun as <- <-. now left. }
    right. unfold bind at 1 in Hrun.
    pose proof (start_command_spawns platform env config
                  (process_name platform) s2) as H3.
    destruct (Strategy.start_command _ _ _ s2) as [[a'| e |] s3];
      cbn [snd] in H3.
    2:{ rewrite rethrow_eq in Hrun. injection Hrun as <- <-. congruence. }
    2:{ injection Hrun as <- <-. congruence. }
    pose proof (manager_waitForHealth_steps no_spawn env config fuel
                  kept_no_spawn (fetch_no_spawn env) get_status_no_spawn
                  put_status_no_spawn date_now_no_spawn (sleep_no_spawn env)
                  s3) as [_ H4].
    unfold Strategy.await_health in Hrun.
    destruct (Base.waitForHealth env config fuel _ s3) as [[a''| e |] s4];
      cbn [snd] in H4; rewrite ?rethrow_eq in Hrun;
      injection Hrun as <- <-; congruence.
  - apply stopService_steps; auto with steps.
  - destruct platform; apply checkHealth_no_spawn.
  - destruct platform; apply getStatus_no_spawn.
  - destruct platform; cbn [manager_for sm_waitForHealth];
      apply (manager_waitForHealth_steps no_spawn env config fuel);
      auto with steps.
Qed.

(** ** Outcomes of [stopService] *)

(** The confirmation polling of the Windows stop always returns normally,
    after at most [n] probes and [n] pauses, leaving the status and the
    process-control layer alone. *)
Lemma wait_until_down_returns (env : Env) (config : ServiceConfig) :
  forall (n : nat) (s : Sys),
    exists s',
      WindowsServiceManager.wait_until_down env config n s = (Ok tt, s')
      /\ status s' = status s
      /\ execs s' = execs s
      /\ spawns s' = spawns s
      /\ process_ops (trace s') = process_ops (trace s)
      /\ (fetches s <= fetches s' <= fetches s + n)%nat
      /\ (sleeps s <= sleeps s' <= sleeps s + n)%nat.
Proof.
  induction n as [|n IH]; intros s;
    cbn [WindowsServiceManager.wait_until_down].
  - exists s. repeat split; lia.
  - unfold bind at 1. rewrite checkHealth_probe.
    destruct (manager_healthy_at env config (fetches s)).
    + unfold bind at 1, sleep at 1.
      match goal with
      | |- context [WindowsServiceManager.wait_until_down env config n ?s2] =>
          destruct (IH s2) as [s' [H1 [H2 [H3 [H4 [H5 [H6 H7]]]]]]]
      end.
      exists s'. cbn [status execs spawns trace fetches sleeps fetched] in *.
      rewrite !process_ops_snoc in H5. cbn [is_process_op] in H5.
      rewrite !app_nil_r in H5.
      repeat split; try assumption; lia.
    + exists (fetched env (manager_url config) s).
      cbn [status execs spawns trace fetches sleeps fetched].
      rewrite process_ops_snoc. cbn [is_process_op]. rewrite app_nil_r.
      repeat split; lia.
Qed.

Lemma bind_eq {A B : Type} (m : M A) (k : A -> M B) (s : Sys) :
  bind m k s
  = match m s with
    | (Ok a, s') => k a s'
    | (Throw e, s') => (Throw e, s')
    | (OutOfFuel, s') => (OutOfFuel, s')
    end.
Proof. reflexivity. Qed.

Lemma try_catch_eq {A : Type} (m : M A) (h : JsError -> M A) (s : Sys) :
  try_catch m h s
  = match m s with
    | (Throw e, s') => h e s'
    | r => r
    end.
Proof. reflexivity. Qed.

Lemma updateStatus_eq (update : StatusUpdate) (s : Sys) :
  Base.updateStatus update s
  = (Ok tt, set_status (Base.merge (status s) update) s).
Proof. reflexivity. Qed.

(** The graceful stop of the Windows process manager, case by case: the
    forced [taskkill] is issued only after the graceful one failed, and the
    error raised is that of the forced one. *)
Lemma windows_stopProcess_eq (env : Env) (name : string) (s : Sys) :
  WindowsProcessManager.stopProcess env name s
  = match exec_reply env (execs s) ("taskkill /IM " ++ name) with
    | Completed _ =>
        (Ok tt, slept env 1000 (executed env ("taskkill /IM " ++ name) s))
    | Failed _ =>
        let s2 := executed env ("taskkill /F /IM " ++ name)
                    (executed env ("taskkill /IM " ++ name) s) in
        match exec_reply env (S (execs s)) ("taskkill /F /IM " ++ name) with
        | Completed _ => (Ok tt, s2)
        | Failed e => (Throw e, s2)
        end
    end.
Proof.
  unfold WindowsProcessManager.stopProcess,
    WindowsProcessManager.forceStopProcess.
  rewrite try_catch_eq, bind_eq. unfold execAsync at 1.
  destruct (exec_reply env (execs s) ("taskkill /IM " ++ name));
    [reflexivity|].
  cbv beta iota zeta. rewrite bind_eq. unfold execAsync at 1. cbn [execs].
  destruct (exec_reply env (S (execs s)) ("taskkill /F /IM " ++ name));
    reflexivity.
Qed.

Lemma windows_forceStopProcess_eq (env : Env) (name : string) (s : Sys) :
  WindowsProcessManager.forceStopProcess env name s
  = match exec_reply env (execs s) ("taskkill /F /IM " ++ name) with
    | Completed _ => (Ok tt, executed env ("taskkill /F /IM " ++ name) s)
    | Failed e => (Throw e, executed env ("taskkill /F /IM " ++ name) s)
    end.
Proof.
  unfold WindowsProcessManager.forceStopProcess.
  rewrite bind_eq. unfold execAsync at 1.
  destruct (exec_reply env (execs s) ("taskkill /F /IM " ++ name));
    reflexivity.
Qed.

(** The Windows stop of a service that answers its probe, case by case on
    the replies to the graceful and to the forced [taskkill]. *)
Lemma windows_stop_healthy_eq (env : Env) (config : ServiceConfig) (s : Sys) :
  manager_healthy_at env config (fetches s) = true ->
  let graceful := "taskkill /IM ollama.exe" in
  let forced := "taskkill /F /IM ollama.exe" in
  let s1 := stopping env config s in
  WindowsServiceManager.stopService env config s
  = match exec_reply env (execs s) graceful with
    | Completed _ =>
        let s3 := snd (WindowsServiceManager.wait_until_down env config 5
                         (slept env 1000 (executed env graceful s1))) in
        (Ok tt, set_status (stopped_status (status s3)) s3)
    | Failed _ =>
        match exec_reply env (S (execs s)) forced with
        | Completed _ =>
            let s3 := snd (WindowsServiceManager.wait_until_down env config 5
                             (executed env forced
                                (executed env graceful s1))) in
            (Ok tt, set_status (stopped_status (status s3)) s3)
        | Failed _ =>
            let s3 := executed env forced
                        (executed env forced (executed env graceful s1)) in
            match exec_reply env (S (S (execs s))) forced with
            | Completed _ =>
                (Ok tt, set_status (stopped_status (status s1)) s3)
            | Failed e =>
                (Throw (ProcessError "Failed to force stop process"
                          "ollama.exe" OpStop (Some e)), s3)
            end
        end
    end.
Proof.
  intros Hhealthy. cbv zeta.
  unfold WindowsServiceManager.stopService.
  rewrite try_catch_eq, bind_eq, checkHealth_probe, Hhealthy.
  cbv beta iota. cbn [negb].
  rewrite bind_eq, updateStatus_eq. cbv beta iota.
  change (set_status _ (fetched env (manager_url config) s))
    with (stopping env config s).
  rewrite try_catch_eq, bind_eq.
  cbn [WindowsServiceManager.processManager WindowsProcessManager.manager
       stopProcess forceStopProcess].
  rewrite windows_stopProcess_eq. cbn [append].
  change (execs (stopping env config s)) with (execs s).
  destruct (exec_reply env (execs s) "taskkill /IM ollama.exe").
  - cbv beta iota. rewrite bind_eq.
    destruct (wait_until_down_returns env config 5
                (slept env 1000
                   (executed env "taskkill /IM ollama.exe"
                      (stopping env config s))))
      as [s3 [H1 _]].
    rewrite H1. reflexivity.
  - cbv zeta.
    destruct (exec_reply env (S (execs s)) "taskkill /F /IM ollama.exe").
    + cbv beta iota. rewrite bind_eq.
      destruct (wait_until_down_returns env config 5
                  (executed env "taskkill /F /IM ollama.exe"
                     (executed env "taskkill /IM ollama.exe"
                        (stopping env config s))))
        as [s3 [H1 _]].
      rewrite H1. reflexivity.
    + cbv beta iota. rewrite try_catch_eq, bind_eq.
      rewrite windows_forceStopProcess_eq. cbn [append].
      change (execs (executed env "taskkill /F /IM ollama.exe"
                       (executed env "taskkill /IM ollama.exe"
                          (stopping env config s))))
        with (S (S (execs s))).
      destruct (exec_reply env (S (S (execs s)))
                  "taskkill /F /IM ollama.exe"); reflexivity.
Qed.

Lemma wait_until_down_facts (env : Env) (config : ServiceConfig) (n : nat)
    (s : Sys) :
  let s' := snd (WindowsServiceManager.wait_until_down env config n s) in
  status s' = status s
  /\ execs s' = execs s
  /\ process_ops (trace s') = process_ops (trace s)
  /\ (fetches s' <= fetches s + n)%nat
  /\ (sleeps s' <= sleeps s + n)%nat.
Proof.
  cbv zeta.
  destruct (wait_until_down_returns env config n s)
    as [s' [H1 [H2 [H3 [H4 [H5 [H6 H7]]]]]]].
  rewrite H1. cbn [snd]. repeat split; try assumption; lia.
Qed.

(** X9. On Windows, once the service has answered the probe and the
    graceful [taskkill] has succeeded, [stopService] returns normally and
    stores 'stopped' whatever the later probes answer: it waits one second,
    polls at most 5 times, issues no other command, and reports 'stopped'
    even if every one of those probes still found the service healthy. *)
Theorem windows_stop_reports_stopped_after_graceful_kill (env : Env)
    (config : ServiceConfig) (s : Sys) (out : string) :
  manager_healthy_at env config (fetches s) = true ->
  exec_reply env (execs s) "taskkill /IM ollama.exe" = Completed out ->
  let r := WindowsServiceManager.stopService env config s in
  fst r = Ok tt
  /\ status (snd r) = stopped_status (status s)
  /\ process_ops (trace (snd r))
     = (process_ops (trace s) ++ [EvExec "taskkill /IM ollama.exe"])%list
  /\ (fetches (snd r) <= fetches s + 6)%nat
  /\ (sleeps (snd r) <= sleeps s + 6)%nat.
Proof.
  intros Hhealthy Hkill. cbv zeta.
  rewrite windows_stop_healthy_eq by exact Hhealthy. cbv zeta.
  rewrite Hkill. cbn [fst snd].
  pose proof (wait_until_down_facts env config 5
                (slept env 1000
                   (executed env "taskkill /IM ollama.exe"
                      (stopping env config s)))) as H.
  cbv zeta in H. destruct H as [H1 [H2 [H3 [H4 H5]]]].
  cbn [status set_status trace fetches sleeps].
  rewrite H1, H3.
  cbn [slept executed stopping set_status fetched status trace fetches sleeps]
    in *.
  rewrite !process_ops_snoc. cbn [is_process_op]. rewrite !app_nil_r.
  repeat split; lia.
Qed.

Lemma windows_stop_reports_stopped_after_graceful_kill_witness :
  fst (WindowsServiceManager.stopService (env_deaf true) test_config fresh)
  = Ok tt
  /\ status (snd (WindowsServiceManager.stopService (env_deaf true)
                    test_config fresh))
     = stopped_status (status fresh)
  /\ fst (Base.checkHealth (env_deaf true) test_config
            (snd (WindowsServiceManager.stopService (env_deaf true)
                    test_config fresh)))
     = Ok true.
Proof.
  destruct (windows_stop_reports_stopped_after_graceful_kill (env_deaf true)
              test_config fresh "SUCCESS" eq_refl eq_refl)
    as [H1 [H2 _]].
  split; [exact H1|]. split; [exact H2|].
  rewrite checkHealth_probe. reflexivity.
Defined.

(** X10. On Windows, when the graceful [taskkill] fails and the forced one
    succeeds, [stopService] returns normally with 'stopped' stored: the
    forced stop was issued exactly once, right after the graceful one, and
    no other command. *)
Theorem windows_stop_escalates_once_when_forced_succeeds (env : Env)
    (config : ServiceConfig) (s : Sys) (e : JsError) (out : string) :
  manager_healthy_at env config (fetches s) = true ->
  exec_reply env (execs s) "taskkill /IM ollama.exe" = Failed e ->
  exec_reply env (S (execs s)) "taskkill /F /IM ollama.exe" = Completed out ->
  let r := WindowsServiceManager.stopService env config s in
  fst r = Ok tt
  /\ status (snd r) = stopped_status (status s)
  /\ process_ops (trace (snd r))
     = (process_ops (trace s)
        ++ [EvExec "taskkill /IM ollama.exe";
            EvExec "taskkill /F /IM ollama.exe"])%list
  /\ execs (snd r) = S (S (execs s)).
Proof.
  intros Hhealthy Hkill Hforce. cbv zeta.
  rewrite windows_stop_healthy_eq by exact Hhealthy. cbv zeta.
  rewrite Hkill, Hforce. cbn [fst snd].
  pose proof (wait_until_down_facts env config 5
                (executed env "taskkill /F /IM ollama.exe"
                   (executed env "taskkill /IM ollama.exe"
                      (stopping env config s)))) as H.
  cbv zeta in H. destruct H as [H1 [H2 [H3 _]]].
  cbn [status set_status trace execs].
  rewrite H1, H2, H3.
  cbn [executed stopping set_status fetched status trace execs].
  rewrite !process_ops_snoc. cbn [is_process_op]. rewrite !app_nil_r.
  rewrite <- app_assoc. repeat split.
Qed.

Lemma windows_stop_escalates_once_when_forced_succeeds_witness :
  process_ops
    (trace (snd (WindowsServiceManager.stopService (env_deaf false)
                   test_config fresh)))
  = [EvExec "taskkill /IM ollama.exe"; EvExec "taskkill /F /IM ollama.exe"].
Proof.
  exact (proj1 (proj2 (proj2
           (windows_stop_escalates_once_when_forced_succeeds (env_deaf false)
              test_config fresh (PlainError "Access is denied") "SUCCESS"
              eq_refl eq_refl eq_refl)))).
Defined.

Lemma unix_stopProcess_found_eq (env : Env) (name : string) (s : Sys)
    (p : ProcessInfo.t) :
  pgrep_finds env name (execs s) = Some p ->
  let kill := "kill " ++ JS.to_string (ProcessInfo.pid p) in
  let s2 := executed env kill (executed env ("pgrep " ++ name) s) in
  UnixProcessManager.stopProcess env name s
  = match exec_reply env (S (execs s)) kill with
    | Completed _ => (Ok tt, slept env 1000 s2)
    | Failed e => (Throw e, s2)
    end.
Proof.
  intros Hfound. cbv zeta. unfold UnixProcessManager.stopProcess.
  rewrite bind_eq, unix_findProcess_eq, Hfound. cbv beta iota.
  rewrite bind_eq. unfold execAsync at 1. cbn [execs executed].
  destruct (exec_reply env (S (execs s))
              ("kill " ++ JS.to_string (ProcessInfo.pid p))); reflexivity.
Qed.

Lemma unix_stop_found_eq (env : Env) (s : Sys) (p : ProcessInfo.t) :
  pgrep_finds env "ollama" (execs s) = Some p ->
  let kill := "kill " ++ JS.to_string (ProcessInfo.pid p) in
  let s1 := set_status (Base.merge (status s) (Base.only_state StStopping))
              s in
  let s2 := executed env kill (executed env "pgrep ollama" s1) in
  UnixServiceManager.stopService env s
  = match exec_reply env (S (execs s)) kill with
    | Completed _ =>
        (Ok tt, set_status (stopped_status (status s)) (slept env 1000 s2))
    | Failed e =>
        (Throw (ProcessError "Failed to stop process" "ollama" OpStop
                  (Some e)), s2)
    end.
Proof.
  intros Hfound. cbv zeta. unfold UnixServiceManager.stopService.
  rewrite try_catch_eq, bind_eq, updateStatus_eq. cbv beta iota.
  rewrite try_catch_eq, bind_eq.
  cbn [UnixServiceManager.processManager UnixProcessManager.manager
       stopProcess].
  rewrite (unix_stopProcess_found_eq env "ollama" _ p) by exact Hfound.
  cbv zeta. cbn [execs set_status].
  destruct (exec_reply env (S (execs s)) _); reflexivity.
Qed.

(** X11. On Unix, when the lookup finds a process, [stopService] sends one
    [kill] to the pid found and nothing else to the process-control layer.
    If the kill succeeds it waits one second, never probes the service, and
    returns with 'stopped' stored; if the kill fails it raises the
    ProcessError of operation 'stop' that carries the kill's error, with the
    state left at 'stopping' and no forced kill issued. *)
Theorem unix_stop_kills_the_process_found (env : Env) (s : Sys)
    (p : ProcessInfo.t) :
  pgrep_finds env "ollama" (execs s) = Some p ->
  let kill := "kill " ++ JS.to_string (ProcessInfo.pid p) in
  let r := UnixServiceManager.stopService env s in
  (forall out,
      exec_reply env (S (execs s)) kill = Completed out ->
      fst r = Ok tt
      /\ status (snd r) = stopped_status (status s)
      /\ trace (snd r)
         = (trace s ++ [EvExec "pgrep ollama"; EvExec kill; EvSleep 1000])%list)
  /\ (forall e,
         exec_reply env (S (execs s)) kill = Failed e ->
         fst r
         = Throw (ProcessError "Failed to stop process" "ollama" OpStop
                    (Some e))
         /\ status (snd r)
            = Base.merge (status s) (Base.only_state StStopping)
         /\ trace (snd r)
            = (trace s ++ [EvExec "pgrep ollama"; EvExec kill])%list).
Proof.
  intros Hfound. cbv zeta.
  rewrite (unix_stop_found_eq env s p Hfound). cbv zeta.
  split; intros x Hreply; rewrite Hreply;
    cbn [fst snd status trace set_status slept executed];
    rewrite <- ?app_assoc; repeat split.
Qed.

Lemma unix_stop_kills_the_process_found_witness :
  UnixServiceManager.stopService (env_deaf true) fresh
  = (Ok tt,
     mkSys 1000 0 2 0 1
       [EvExec "pgrep ollama"; EvExec "kill 4242"; EvSleep 1000]
       (mkStatus false StStopped None None)).
Proof.
  destruct (proj1 (unix_stop_kills_the_process_found (env_deaf true) fresh
                     (ProcessInfo.mk (JS.Int 4242) "ollama") eq_refl)
              "SUCCESS" eq_refl)
    as [H1 [H2 H3]].
  destruct (UnixServiceManager.stopService (env_deaf true) fresh)
    as [out s'] eqn:Hrun.
  cbn [fst snd] in *. subst out.
  replace s' with (snd (UnixServiceManager.stopService (env_deaf true) fresh))
    by (rewrite Hrun; reflexivity).
  reflexivity.
Defined.

(** X12. On either platform and whatever the outside world does,
    [stopService] ends in one of two ways: it returns normally with
    [running] false and the state 'stopped' stored, or it raises a
    ProcessError of operation 'stop' on the platform's process name, with
    the state left at 'stopping'.  It never raises anything else (no
    PlatformError, no ServiceError) and never stores the state 'error'. *)
Theorem stopService_stops_or_raises_ProcessError (platform : PlatformName)
    (env : Env) (config : ServiceConfig) (s : Sys) :
  match sm_stopService (manager_for platform env config) s with
  | (Ok _, s') => status s' = stopped_status (status s)
  | (Throw e, s') =>
      (exists message cause,
          e = ProcessError message (process_name platform) OpStop
                (Some cause))
      /\ status s' = Base.merge (status s) (Base.only_state StStopping)
  | (OutOfFuel, _) => False
  end.
Proof.
  destruct platform; cbn [manager_for sm_stopService process_name].
  - destruct (pgrep_finds env "ollama" (execs s)) as [p|] eqn:Hfound.
    + rewrite (unix_stop_found_eq env s p Hfound). cbv zeta.
      destruct (exec_reply env (S (execs s)) _).
      * reflexivity.
      * split; [eauto|reflexivity].
    + rewrite unix_stop_no_process_eq by exact Hfound. reflexivity.
  - destruct (manager_healthy_at env config (fetches s)) eqn:Hhealthy.
    + rewrite windows_stop_healthy_eq by exact Hhealthy. cbv zeta.
      destruct (exec_reply env (execs s) "taskkill /IM ollama.exe").
      * destruct (wait_until_down_facts env config 5
                    (slept env 1000
                       (executed env "taskkill /IM ollama.exe"
                          (stopping env config s)))) as [H1 _].
        cbn [status set_status]. rewrite H1. reflexivity.
      * destruct (exec_reply env (S (execs s)) "taskkill /F /IM ollama.exe").
        -- destruct (wait_until_down_facts env config 5
                       (executed env "taskkill /F /IM ollama.exe"
                          (executed env "taskkill /IM ollama.exe"
                             (stopping env config s)))) as [H1 _].
           cbn [status set_status]. rewrite H1. reflexivity.
        -- destruct (exec_reply env (S (S (execs s)))
                       "taskkill /F /IM ollama.exe").
           ++ reflexivity.
           ++ split; [eauto|reflexivity].
    + rewrite windows_stop_unhealthy_eq by exact Hhealthy. reflexivity.
Qed.

(** ** Reading and writing a pid *)

Lemma append_nil_r (s : string) : s ++ "" = s.
Proof. induction s as [|c s IH]; cbn [append]; [reflexivity|now rewrite IH]. Qed.

Lemma append_assoc (a b c : string) : (a ++ b) ++ c = a ++ (b ++ c).
Proof. induction a as [|x a IH]; cbn [append]; [reflexivity|now rewrite IH]. Qed.

Lemma rev_string_app (s acc : string) :
  JS.rev_string acc s = JS.rev_string "" s ++ acc.
Proof.
  revert acc. induction s as [|c s IH]; intros acc; cbn [JS.rev_string].
  - reflexivity.
  - rewrite IH, (IH (String c "")). rewrite append_assoc. reflexivity.
Qed.

Lemma rev_string_append (a b : string) :
  JS.rev_string "" (a ++ b) = JS.rev_string "" b ++ JS.rev_string "" a.
Proof.
  induction a as [|c a IH]; cbn [append JS.rev_string].
  - now rewrite append_nil_r.
  - rewrite rev_string_app, IH, (rev_string_app a (String c "")).
    now rewrite append_assoc.
Qed.

Lemma rev_string_involutive (s : string) :
  JS.rev_string "" (JS.rev_string "" s) = s.
Proof.
  induction s as [|c s IH]; cbn [JS.rev_string]; [reflexivity|].
  rewrite (rev_string_app s (String c "")), rev_string_append, IH.
  reflexivity.
Qed.

Lemma trimStart_append (u v : string) (x : ascii) (rest : string) :
  v = String x rest -> JS.is_space x = false ->
  JS.trimStart (u ++ v) = JS.trimStart u ++ v.
Proof.
  intros -> Hx. induction u as [|c u IH]; cbn [append JS.trimStart].
  - now rewrite Hx.
  - destruct (JS.is_space c); [exact IH|reflexivity].
Qed.

Lemma trimStart_suffix (s : string) :
  exists removed, s = removed ++ JS.trimStart s.
Proof.
  induction s as [|c s [r IH]]; cbn [JS.trimStart].
  - exists "". reflexivity.
  - destruct (JS.is_space c).
    + exists (String c r). cbn [append]. now rewrite <- IH.
    + exists "". reflexivity.
Qed.

Lemma trimEnd_prefix (s : string) :
  exists removed, s = JS.trimEnd s ++ removed.
Proof.
  unfold JS.trimEnd.
  destruct (trimStart_suffix (JS.rev_string "" s)) as [r Hr].
  exists (JS.rev_string "" r).
  rewrite <- rev_string_append, <- Hr. now rewrite rev_string_involutive.
Qed.

Lemma trimEnd_append (ds w : string) (c : ascii) (rest : string) :
  JS.rev_string "" ds = String c rest -> JS.is_space c = false ->
  JS.trimEnd (ds ++ w) = ds ++ JS.trimEnd w.
Proof.
  intros Hrev Hc. unfold JS.trimEnd.
  rewrite rev_string_append.
  rewrite (trimStart_append _ _ c rest Hrev Hc).
  rewrite rev_string_append, rev_string_involutive. reflexivity.
Qed.

Lemma digit_not_space (c : ascii) : JS.is_digit c = true -> JS.is_space c = false.
Proof.
  unfold JS.is_digit, JS.is_space. intros H.
  apply andb_true_iff in H. destruct H as [H1 H2].
  apply Nat.leb_le in H1. apply Nat.leb_le in H2.
  repeat (apply orb_false_iff; split).
  - apply andb_false_iff. right. apply Nat.leb_gt. lia.
  - apply Nat.eqb_neq. lia.
  - apply Nat.eqb_neq. lia.
Qed.

Lemma digits_prefix_append (ds t : string) (acc : option Z) :
  all_digits ds = true ->
  (t = "" \/ exists c rest, t = String c rest /\ JS.is_digit c = false) ->
  JS.digits_prefix acc (ds ++ t) = JS.digits_prefix acc ds.
Proof.
  intros Hds Ht. revert acc. induction ds as [|c ds IH]; intros acc; cbn [append].
  - destruct Ht as [-> | [c [rest [-> Hc]]]]; cbn [JS.digits_prefix]; [reflexivity|].
    now rewrite Hc.
  - cbn [all_digits] in Hds. apply andb_true_iff in Hds. destruct Hds as [Hc Hds].
    cbn [JS.digits_prefix]. rewrite Hc. apply IH. exact Hds.
Qed.

Lemma all_digits_string_of_uint (d : uint) : all_digits (NilEmpty.string_of_uint d) = true.
Proof. induction d; cbn [NilEmpty.string_of_uint all_digits]; try reflexivity; exact IHd. Qed.

Lemma digits_prefix_of_uint_acc (d : uint) (a : positive) :
  JS.digits_prefix (Some (Z.pos a)) (NilEmpty.string_of_uint d)
  = Some (Z.pos (Pos.of_uint_acc d a)).
Proof.
  revert a. induction d; intros a; cbn [NilEmpty.string_of_uint JS.digits_prefix Pos.of_uint_acc];
    try reflexivity;
    match goal with |- context [JS.is_digit ?c] => change (JS.is_digit c) with true end;
    cbv beta iota;
    rewrite <- IHd; f_equal; f_equal;
    match goal with
    | |- context [JS.digit_value ?c] =>
        let v := eval vm_compute in (JS.digit_value c) in
        change (JS.digit_value c) with v
    end; lia.
Qed.

Lemma digits_prefix_of_uint (d : uint) :
  JS.digits_prefix (Some 0) (NilEmpty.string_of_uint d) = Some (Z.of_N (Pos.of_uint d)).
Proof.
  induction d; cbn [NilEmpty.string_of_uint JS.digits_prefix Pos.of_uint];
    try reflexivity;
    match goal with |- context [JS.is_digit ?c] => change (JS.is_digit c) with true end;
    cbv beta iota;
    first [ exact IHd | apply digits_prefix_of_uint_acc ].
Qed.

Lemma parseInt_of_digits (d : uint) (t : string) :
  d <> Nil -> ends_the_digits t ->
  JS.parseInt (NilEmpty.string_of_uint d ++ t) = JS.Int (Z.of_N (Pos.of_uint d)).
Proof.
  intros Hd Ht. unfold JS.parseInt.
  destruct d; [contradiction|..];
    cbn [NilEmpty.string_of_uint append JS.trimStart];
    match goal with
    | |- context [JS.is_space ?c] => change (JS.is_space c) with false
    end;
    cbv iota; cbn [JS.digits_prefix];
    match goal with
    | |- context [JS.is_digit ?c] => change (JS.is_digit c) with true
    end;
    cbv iota;
    rewrite (digits_prefix_append _ t _ (all_digits_string_of_uint d) Ht);
    cbn [Pos.of_uint];
    first [ rewrite digits_prefix_of_uint; reflexivity
          | match goal with
            | |- context [JS.digits_prefix (Some ?v) _] =>
                let w := eval vm_compute in v in
                change v with w
            end;
            rewrite digits_prefix_of_uint_acc; reflexivity ].
Qed.

Lemma trim_of_digits (d : uint) (w : string) :
  d <> Nil ->
  JS.trim (NilEmpty.string_of_uint d ++ w)
  = NilEmpty.string_of_uint d ++ JS.trimEnd w.
Proof.
  intros Hd. unfold JS.trim.
  assert (Hstart : JS.trimStart (NilEmpty.string_of_uint d ++ w)
                   = NilEmpty.string_of_uint d ++ w).
  { destruct d; [contradiction|..];
      cbn [NilEmpty.string_of_uint append JS.trimStart]; reflexivity. }
  rewrite Hstart.
  pose proof (all_digits_string_of_uint d) as Hall.
  assert (Hrev : all_digits (JS.rev_string "" (NilEmpty.string_of_uint d)) = true).
  { clear Hstart Hd.
    assert (G : forall s acc, all_digits s = true -> all_digits acc = true ->
                 all_digits (JS.rev_string acc s) = true).
    { induction s as [|c s IH]; intros acc Hs Hacc; cbn [JS.rev_string].
      - exact Hacc.
      - cbn [all_digits] in Hs. apply andb_true_iff in Hs.
        destruct Hs as [Hc Hs]. apply IH; [exact Hs|].
        cbn [all_digits]. now rewrite Hc, Hacc. }
    apply G; [exact Hall|reflexivity]. }
  destruct (JS.rev_string "" (NilEmpty.string_of_uint d)) as [|c rest] eqn:Hr.
  - exfalso. apply (f_equal (JS.rev_string "")) in Hr.
    rewrite rev_string_involutive in Hr. cbn in Hr.
    destruct d; [contradiction|..]; discriminate.
  - cbn [all_digits] in Hrev. apply andb_true_iff in Hrev.
    destruct Hrev as [Hc _].
    apply (trimEnd_append _ _ c rest Hr). now apply digit_not_space.
Qed.

Lemma trimEnd_ends_the_digits (w : string) :
  ends_the_digits w -> ends_the_digits (JS.trimEnd w).
Proof.
  intros [-> | [c [rest [-> Hc]]]].
  - left. reflexivity.
  - destruct (trimEnd_prefix (String c rest)) as [removed Hr].
    destruct (JS.trimEnd (String c rest)) as [|c' rest'].
    + left. reflexivity.
    + right. cbn [append] in Hr. injection Hr as <- _. eauto.
Qed.

Lemma to_string_pos (p : positive) :
  JS.to_string (JS.Int (Z.pos p)) = NilEmpty.string_of_uint (Pos.to_uint p).
Proof.
  cbn [JS.to_string]. unfold JS.string_of_Z. cbn [Z.to_int NilZero.string_of_int].
  unfold NilZero.string_of_uint.
  pose proof (Unsigned.to_uint_nonnil p) as H.
  destruct (Pos.to_uint p); [contradiction|reflexivity ..].
Qed.

Lemma parseInt_trim_of_pid (p : positive) (w : string) :
  ends_the_digits w ->
  JS.parseInt (JS.trim (JS.to_string (JS.Int (Z.pos p)) ++ w)) = JS.Int (Z.pos p).
Proof.
  intros Hw. rewrite to_string_pos.
  rewrite trim_of_digits by apply Unsigned.to_uint_nonnil.
  rewrite parseInt_of_digits.
  - now rewrite DecimalPos.Unsigned.of_to.
  - apply Unsigned.to_uint_nonnil.
  - now apply trimEnd_ends_the_digits.
Qed.

(** X13. On Unix the lookup keeps the first pid that [pgrep] printed and
    ignores whatever follows its line: for a pid [p] up to
    [Number.MAX_SAFE_INTEGER], [findProcess] answers that pid, and
    [stopProcess] and [forceStopProcess] send their kill to that pid and to
    no other, so further processes of the same name are left alone. *)
Theorem unix_lookup_takes_the_first_pid (env : Env) (name : string) (s : Sys)
    (p : positive) (more : string) :
  safe_pid p ->
  exec_reply env (execs s) ("pgrep " ++ name)
  = Completed (JS.to_string (JS.Int (Z.pos p)) ++ line_feed ++ more) ->
  let pid := JS.to_string (JS.Int (Z.pos p)) in
  fst (UnixProcessManager.findProcess env name s)
  = Ok (Some (ProcessInfo.mk (JS.Int (Z.pos p)) name))
  /\ process_ops (trace (snd (UnixProcessManager.stopProcess env name s)))
     = (process_ops (trace s)
        ++ [EvExec ("pgrep " ++ name); EvExec ("kill " ++ pid)])%list
  /\ process_ops (trace (snd (UnixProcessManager.forceStopProcess env name s)))
     = (process_ops (trace s)
        ++ [EvExec ("pgrep " ++ name); EvExec ("kill -9 " ++ pid)])%list.
Proof.
  intros _ Hreply. cbv zeta.
  assert (Hfound : pgrep_finds env name (execs s)
                   = Some (ProcessInfo.mk (JS.Int (Z.pos p)) name)).
  { unfold pgrep_finds. rewrite Hreply.
    rewrite parseInt_trim_of_pid; [reflexivity|].
    right. exists "010"%char, more. split; reflexivity. }
  split; [|split].
  - rewrite unix_findProcess_eq, Hfound. reflexivity.
  - rewrite (unix_stopProcess_found_eq env name s _ Hfound). cbv zeta.
    cbn [ProcessInfo.pid].
    destruct (exec_reply env (S (execs s)) _);
      cbn [snd slept executed trace]; rewrite !process_ops_snoc;
      cbn [is_process_op]; rewrite ?app_nil_r, <- app_assoc; reflexivity.
  - unfold UnixProcessManager.forceStopProcess.
    rewrite bind_eq, unix_findProcess_eq, Hfound. cbv beta iota.
    rewrite bind_eq. unfold execAsync at 1.
    cbn [ProcessInfo.pid execs executed trace].
    destruct (exec_reply env (S (execs s)) _);
      cbn [snd trace ret]; rewrite !process_ops_snoc;
      cbn [is_process_op]; rewrite <- app_assoc; reflexivity.
Qed.

Lemma unix_lookup_takes_the_first_pid_witness :
  fst (UnixProcessManager.findProcess (unkillable true) "ollama" fresh)
  = Ok (Some (ProcessInfo.mk (JS.Int 4242) "ollama")).
Proof.
  exact (proj1 (unix_lookup_takes_the_first_pid (unkillable true) "ollama"
                  fresh 4242 ""
                  (proj1 (Z.leb_le 4242 MAX_SAFE_INTEGER) eq_refl) eq_refl)).
Defined.

(** ** What a failed start leaves behind *)

Lemma start_command_ok_trace (platform : PlatformName) (env : Env)
    (config : ServiceConfig) (name : string) (s s' : Sys) :
  Strategy.start_command config name (process_manager platform env) s
  = (Ok tt, s') ->
  trace s' = (trace s ++ [EvSpawn (command config)])%list.
Proof.
  unfold Strategy.start_command. rewrite try_catch_eq.
  destruct platform;
    cbn [process_manager UnixProcessManager.manager
         WindowsProcessManager.manager startProcess];
    unfold UnixProcessManager.startProcess,
      WindowsProcessManager.startProcess, spawn_detached;
    destruct (spawn_reply env (spawns s) (command config));
    intros H; try discriminate; injection H as <-; reflexivity.
Qed.

(** X14. When [startService] fails in the health wait (it raises a
    PlatformError), the command has been spawned and nothing is asked of the
    process-control layer afterwards: the spawn is the last process-control
    event of the call, so the process just started is not stopped. *)
Theorem failed_health_wait_leaves_the_spawned_process
    (platform : PlatformName) (env : Env) (config : ServiceConfig)
    (fuel : nat) (s s' : Sys) (message : string) (on : PlatformName)
    (operation : string) (cause : option JsError) :
  sm_startService (manager_for platform env config) fuel s
  = (Throw (PlatformError message on operation cause), s') ->
  exists before,
    process_ops (trace s') = (before ++ [EvSpawn (command config)])%list.
Proof.
  rewrite manager_startService_eq. intros H.
  destruct (manager_healthy_at env config (fetches s)) eqn:Hhealthy.
  - rewrite startService_when_healthy in H by exact Hhealthy. discriminate.
  - rewrite startService_when_unhealthy in H by exact Hhealthy.
    rewrite try_catch_eq in H.
    destruct ((Strategy.stop_existing _ _ ;;; _) (starting env config s))
      as [[a| e0 |] s2] eqn:Hin; [discriminate| |discriminate].
    rewrite rethrow_eq in H. injection H as He <-.
    assert (Hkind : is_ProcessError_or_ServiceError e0 = false).
    { destruct (is_ProcessError_or_ServiceError e0) eqn:Hk; [|reflexivity].
      subst e0. discriminate. }
    clear He.
    apply bind_throw_inv in Hin.
    destruct Hin as [Hstop | [a [s3 [_ Hin]]]].
    { apply stop_existing_throws in Hstop. destruct Hstop as [c ->].
      discriminate. }
    apply bind_throw_inv in Hin.
    destruct Hin as [Hspawn | [a' [s4 [Hspawn Hwait]]]].
    { apply start_command_throws in Hspawn. destruct Hspawn as [c ->].
      discriminate. }
    destruct a'.
    apply start_command_ok_trace in Hspawn.
    pose proof (manager_waitForHealth_steps no_process_op env config fuel
                  kept_no_process_op (fetch_no_process_op env)
                  get_status_no_process_op put_status_no_process_op
                  date_now_no_process_op (sleep_no_process_op env) s4)
      as [_ [_ Hquiet]].
    unfold Strategy.await_health in Hwait. rewrite Hwait in Hquiet.
    cbn [snd] in Hquiet.
    exists (process_ops (trace s3)).
    rewrite Hquiet, Hspawn, process_ops_snoc. reflexivity.
Qed.

Lemma failed_health_wait_leaves_the_spawned_process_witness :
  exists before,
    process_ops
      (trace (snd (UnixServiceManager.startService env_down test_config 20
                     fresh)))
    = (before ++ [EvSpawn (command test_config)])%list.
Proof.
  apply (failed_health_wait_leaves_the_spawned_process unix env_down
           test_config 20 fresh
           (snd (UnixServiceManager.startService env_down test_config 20
                   fresh))
           "Failed to start service on Unix platform" unix "start"
           (Some (HealthCheckError
                    "Health check failed after maximum attempts"
                    (mkStatus false StStopped None None) 10))).
  vm_compute. reflexivity.
Defined.

(** X15. A manager never reads [healthCheck.maxAttempts]: each of its five
    operations behaves the same whatever that field holds, so the attempt
    budget of its health wait is always floor(timeout / interval). *)
Theorem manager_ignores_maxAttempts (platform : PlatformName) (env : Env)
    (config : ServiceConfig) (n : option JS.number) (fuel : nat) (s : Sys) :
  let sm := manager_for platform env config in
  let sm' := manager_for platform env (with_maxAttempts n config) in
  sm_startService sm' fuel s = sm_startService sm fuel s
  /\ sm_stopService sm' s = sm_stopService sm s
  /\ sm_checkHealth sm' s = sm_checkHealth sm s
  /\ sm_getStatus sm' s = sm_getStatus sm s
  /\ sm_waitForHealth sm' fuel s = sm_waitForHealth sm fuel s.
Proof.
  destruct config as [cmd prt [tmo itv given]].
  destruct platform; cbv zeta; repeat split; reflexivity.
Qed.

(** X16. The graceful stop of the Windows process manager, for any process
    name: the forced [taskkill] is issued only after the graceful one
    failed; the call raises only when both failed, and then raises the
    error of the forced one (that of the graceful one is dropped); the
    one-second pause follows a successful graceful stop only. *)
Theorem windows_stopProcess_raises_only_when_forced_fails (env : Env)
    (name : string) (s : Sys) :
  let graceful := "taskkill /IM " ++ name in
  let forced := "taskkill /F /IM " ++ name in
  let r := WindowsProcessManager.stopProcess env name s in
  (forall out,
      exec_reply env (execs s) graceful = Completed out ->
      fst r = Ok tt
      /\ trace (snd r) = (trace s ++ [EvExec graceful; EvSleep 1000])%list)
  /\ (forall e out,
         exec_reply env (execs s) graceful = Failed e ->
         exec_reply env (S (execs s)) forced = Completed out ->
         fst r = Ok tt
         /\ trace (snd r) = (trace s ++ [EvExec graceful; EvExec forced])%list)
  /\ (forall e1 e2,
         exec_reply env (execs s) graceful = Failed e1 ->
         exec_reply env (S (execs s)) forced = Failed e2 ->
         fst r = Throw e2
         /\ trace (snd r) = (trace s ++ [EvExec graceful; EvExec forced])%list).
Proof.
  cbv zeta. rewrite windows_stopProcess_eq. cbv zeta.
  split; [|split].
  - intros out H. rewrite H. cbn [fst snd slept executed trace].
    rewrite <- app_assoc. split; reflexivity.
  - intros e out H1 H2. rewrite H1, H2. cbn [fst snd executed trace].
    rewrite <- app_assoc. split; reflexivity.
  - intros e1 e2 H1 H2. rewrite H1, H2. cbn [fst snd executed trace].
    rewrite <- app_assoc. split; reflexivity.
Qed.

Lemma windows_stopProcess_raises_only_when_forced_fails_witness :
  fst (WindowsProcessManager.stopProcess (unkillable true) "ollama.exe" fresh)
  = Throw (PlainError "Operation not permitted")
  /\ fst (WindowsProcessManager.stopProcess (env_deaf false) "ollama.exe"
            fresh)
     = Ok tt.
Proof.
  split.
  - exact (proj1 (proj2 (proj2
             (windows_stopProcess_raises_only_when_forced_fails
                (unkillable true) "ollama.exe" fresh))
             (PlainError "Operation not permitted")
             (PlainError "Operation not permitted") eq_refl eq_refl)).
  - exact (proj1 (proj1 (proj2
             (windows_stopProcess_raises_only_when_forced_fails
                (env_deaf false) "ollama.exe" fresh))
             (PlainError "Access is denied") "SUCCESS" eq_refl eq_refl)).
Defined.

(** ** Reading the pid column of [tasklist] *)

Lemma match_name_self (name rest : string) :
  RegExp.match_name name (name ++ rest) = Some rest.
Proof.
  induction name as [|c name IH]; cbn [append RegExp.match_name].
  - destruct rest; reflexivity.
  - destruct (Ascii.eqb c ".") eqn:Hdot.
    + apply Ascii.eqb_eq in Hdot. subst c.
      change (RegExp.is_line_terminator ".") with false. exact IH.
    + rewrite Ascii.eqb_refl. exact IH.
Qed.

Lemma match_digits_spec (ds seen rest : string) :
  all_digits ds = true ->
  seen <> "" \/ ds <> "" ->
  RegExp.match_digits seen (ds ++ String RegExp.dquote rest)
  = Some (JS.rev_string "" seen ++ ds).
Proof.
  revert seen. induction ds as [|c ds IH]; intros seen Hall Hsome;
    cbn [append RegExp.match_digits].
  - change (JS.is_digit RegExp.dquote) with false. rewrite Ascii.eqb_refl.
    cbv iota. destruct seen as [|x seen].
    + destruct Hsome as [Hsome | Hsome]; now contradiction Hsome.
    + now rewrite append_nil_r.
  - cbn [all_digits] in Hall. apply andb_prop in Hall.
    destruct Hall as [Hc Hall]. rewrite Hc.
    rewrite IH by (auto; left; discriminate).
    cbn [JS.rev_string]. rewrite (rev_string_app seen (String c "")).
    rewrite append_assoc. reflexivity.
Qed.

Lemma search_at_the_row (name ds more : string) :
  all_digits ds = true -> ds <> "" ->
  RegExp.search name (quoted name ++ "," ++ quoted ds ++ more) = Some ds.
Proof.
  intros Hall Hsome. unfold quoted. cbn [append].
  rewrite !append_assoc. cbn [append].
  unfold RegExp.search, RegExp.match_here.
  rewrite Ascii.eqb_refl, match_name_self.
  rewrite !Ascii.eqb_refl. cbn [andb].
  rewrite match_digits_spec by auto. reflexivity.
Qed.

Lemma search_without_quote (name out : string) :
  mentions RegExp.dquote out = false -> RegExp.search name out = None.
Proof.
  induction out as [|c out IH]; cbn [mentions RegExp.search RegExp.match_here];
    intros H.
  - reflexivity.
  - apply orb_false_elim in H. destruct H as [Hc Hout]. rewrite Hc.
    exact (IH Hout).
Qed.

(** X17. On Windows the lookup reads the pid from the second column of the
    row that [tasklist] prints for the process: for a name without regular
    expression syntax and output that begins with the row of the name and
    of a pid [p] up to [Number.MAX_SAFE_INTEGER], [findProcess] answers that
    pid under the name asked for, and [isProcessRunning] answers true. *)
Theorem windows_lookup_reads_the_pid_column (env : Env) (name : string)
    (s : Sys) (p : positive) (more : string) :
  safe_pid p ->
  RegExp.has_syntax name = false ->
  exec_reply env (execs s) (WindowsProcessManager.tasklist_command name)
  = Completed (quoted name ++ "," ++ quoted (JS.to_string (JS.Int (Z.pos p)))
               ++ more) ->
  fst (WindowsProcessManager.findProcess env name s)
  = Ok (Some (ProcessInfo.mk (JS.Int (Z.pos p)) name))
  /\ fst (WindowsProcessManager.isProcessRunning env name s) = Ok true.
Proof.
  intros _ Hname Hout.
  assert (Hfind : tasklist_finds env name (execs s)
                  = Some (ProcessInfo.mk (JS.Int (Z.pos p)) name)).
  { unfold tasklist_finds. rewrite Hout. unfold RegExp.match_pid.
    rewrite Hname, to_string_pos.
    rewrite search_at_the_row.
    - pose proof (parseInt_of_digits (Pos.to_uint p) ""
                    (Unsigned.to_uint_nonnil p) (or_introl eq_refl)) as Hpid.
      rewrite append_nil_r, DecimalPos.Unsigned.of_to in Hpid.
      pose proof (Unsigned.to_uint_nonnil p) as Hnil.
      destruct (NilEmpty.string_of_uint (Pos.to_uint p)) eqn:Hds.
      + destruct (Pos.to_uint p); try contradiction; discriminate.
      + rewrite Hpid. reflexivity.
    - apply all_digits_string_of_uint.
    - pose proof (Unsigned.to_uint_nonnil p) as Hnil.
      destruct (Pos.to_uint p); try contradiction; discriminate. }
  split.
  - rewrite windows_findProcess_eq. cbn [fst]. now rewrite Hfind.
  - rewrite windows_isProcessRunning_eq. cbn [fst]. rewrite Hfind.
    reflexivity.
Qed.

Lemma windows_lookup_reads_the_pid_column_witness :
  fst (WindowsProcessManager.findProcess
         (mkEnv (fun _ _ => Rejected (PlainError "ECONNREFUSED"))
            (fun _ => 10)
            (fun _ _ =>
               Completed (quoted "ollama.exe" ++ "," ++ quoted "4312" ++ ","
                          ++ quoted "Console" ++ "," ++ quoted "1" ++ ","
                          ++ quoted "52,108 K" ++ String "013"%char line_feed))
            (fun _ _ => None) (fun _ => 0) (fun _ _ => RxNoMatch))
         "ollama.exe" fresh)
  = Ok (Some (ProcessInfo.mk (JS.Int 4312) "ollama.exe")).
Proof.
  exact (proj1
           (windows_lookup_reads_the_pid_column
              (mkEnv (fun _ _ => Rejected (PlainError "ECONNREFUSED"))
                 (fun _ => 10)
                 (fun _ _ =>
                    Completed (quoted "ollama.exe" ++ "," ++ quoted "4312"
                               ++ "," ++ quoted "Console" ++ ","
                               ++ quoted "1" ++ "," ++ quoted "52,108 K"
                               ++ String "013"%char line_feed))
                 (fun _ _ => None) (fun _ => 0) (fun _ _ => RxNoMatch))
              "ollama.exe" fresh 4312%positive
              ("," ++ quoted "Console" ++ "," ++ quoted "1" ++ ","
               ++ quoted "52,108 K" ++ String "013"%char line_feed)
              (proj1 (Z.leb_le 4312 MAX_SAFE_INTEGER) eq_refl)
              eq_refl eq_refl)).
Defined.

(** X18. On Windows the lookup answers null whenever the output of
    [tasklist] holds no double quote, as with the notice it prints when no
    task matches: no row, no process, whatever the name without regular
    expression syntax, and [isProcessRunning] answers false. *)
Theorem windows_lookup_without_row_is_null (env : Env) (name out : string)
    (s : Sys) :
  RegExp.has_syntax name = false ->
  exec_reply env (execs s) (WindowsProcessManager.tasklist_command name)
  = Completed out ->
  mentions RegExp.dquote out = false ->
  fst (WindowsProcessManager.findProcess env name s) = Ok None
  /\ fst (WindowsProcessManager.isProcessRunning env name s) = Ok false.
Proof.
  intros Hname Hout Hquote.
  assert (Hfind : tasklist_finds env name (execs s) = None).
  { unfold tasklist_finds. rewrite Hout. unfold RegExp.match_pid.
    rewrite Hname, search_without_quote by exact Hquote. reflexivity. }
  split.
  - rewrite windows_findProcess_eq. cbn [fst]. now rewrite Hfind.
  - rewrite windows_isProcessRunning_eq. cbn [fst]. rewrite Hfind.
    reflexivity.
Qed.

Lemma windows_lookup_without_row_is_null_witness :
  fst (WindowsProcessManager.findProcess
         (mkEnv (fun _ _ => Rejected (PlainError "ECONNREFUSED"))
            (fun _ => 10)
            (fun _ _ =>
               Completed "INFO: No tasks are running which match the specified criteria.")
            (fun _ _ => None) (fun _ => 0) (fun _ _ => RxNoMatch))
         "ollama.exe" fresh)
  = Ok None.
Proof.
  exact (proj1
           (windows_lookup_without_row_is_null
              (mkEnv (fun _ _ => Rejected (PlainError "ECONNREFUSED"))
                 (fun _ => 10)
                 (fun _ _ =>
                    Completed "INFO: No tasks are running which match the specified criteria.")
                 (fun _ _ => None) (fun _ => 0) (fun _ _ => RxNoMatch))
              "ollama.exe"
              "INFO: No tasks are running which match the specified criteria."
              fresh eq_refl eq_refl eq_refl)).
Defined.
